(** * Booking reconciliation: GA4 purchase events against Salesforce opportunities

    A shallow embedding of [dags/booking_reconciliation_dag.py]: the
    flattening loop of [extract_ga4_events], the null counts of
    [data_quality_checks], the reconciliation query of
    [build_reconciliation_model] and the daily-trend and revenue queries of
    [generate_reconciliation_report].

    The queries are SQL run by DuckDB.  A column is an [option] ([None] is
    NULL), a condition is a three-valued boolean, a table is a list of rows.
    The order in which a join emits its rows is not fixed by SQL; the list
    order chosen here (left rows first, unmatched right rows last) is one
    admissible order, and every statement below that depends on order is
    about an [ORDER BY]. *)

From Stdlib Require Import List String ZArith QArith Qround Bool Lia.
From Stdlib Require Import Permutation Sorted.
From Stdlib Require Import Qabs Lqa DecimalString DecimalNat.
Import ListNotations.

Local Open Scope Z_scope.

(** ** SQL values and conditions *)

Module Sql.

(** [a AND b] in three-valued logic. *)
Definition and3 (a b : option bool) : option bool :=
  match a, b with
  | Some false, _ => Some false
  | _, Some false => Some false
  | Some true, Some true => Some true
  | _, _ => None
  end.

(** [x IS NULL] and [x IS NOT NULL] are never NULL themselves. *)
Definition is_null {A} (x : option A) : option bool :=
  match x with None => Some true | Some _ => Some false end.

Definition is_not_null {A} (x : option A) : option bool :=
  match x with None => Some false | Some _ => Some true end.

(** [x = y] and [x != y]: NULL as soon as one operand is NULL. *)
Definition eq3 {A} (eqb : A -> A -> bool) (x y : option A) : option bool :=
  match x, y with
  | Some a, Some b => Some (eqb a b)
  | _, _ => None
  end.

Definition neq3 {A} (eqb : A -> A -> bool) (x y : option A) : option bool :=
  match x, y with
  | Some a, Some b => Some (negb (eqb a b))
  | _, _ => None
  end.

(** A [WHERE], [ON] or [WHEN] condition selects only when it is TRUE. *)
Definition holds (c : option bool) : bool :=
  match c with Some true => true | _ => false end.

(** Searched [CASE WHEN c1 THEN v1 ... ELSE e END]; without [ELSE] the
    default is NULL. *)
Fixpoint case_when {A} (branches : list (option bool * A)) (els : option A)
  : option A :=
  match branches with
  | [] => els
  | (c, v) :: rest => if holds c then Some v else case_when rest els
  end.

Definition coalesce {A} (x y : option A) : option A :=
  match x with Some _ => x | None => y end.

(** A column of the nullable side of an outer join. *)
Definition col {A B} (r : option A) (f : A -> option B) : option B :=
  match r with Some a => f a | None => None end.

(** [L FULL OUTER JOIN R ON on]: every pair that satisfies [on]; a left
    row without partner padded with NULLs on the right; a right row
    without partner padded with NULLs on the left. *)
Definition left_outer_rows {A B} (on : A -> B -> bool) (R : list B) (a : A)
  : list (option A * option B) :=
  match filter (on a) R with
  | [] => [(Some a, None)]
  | partners => map (fun b => (Some a, Some b)) partners
  end.

Definition unmatched {A B} (on : A -> B -> bool) (L : list A) (b : B)
  : bool :=
  negb (existsb (fun a => on a b) L).

Definition full_outer_join {A B} (on : A -> B -> bool)
    (L : list A) (R : list B) : list (option A * option B) :=
  flat_map (left_outer_rows on R) L
  ++ map (fun b => (None, Some b)) (filter (unmatched on L) R).

(** [COUNT( * )] of the rows that satisfy a condition. *)
Definition count_where {A} (p : A -> bool) (t : list A) : nat :=
  List.length (filter p t).

End Sql.

(** Timestamps are microseconds since the epoch, dates are days since the
    epoch, as DuckDB stores them. *)
Definition TIMESTAMP := Z.
Definition DATE := Z.

Definition MICROS_PER_SEC : Z := 1000000.
Definition SECS_PER_MINUTE : Z := 60.
Definition MICROS_PER_DAY : Z := 86400000000.

(** [CAST(ts AS DATE)] *)
Definition cast_date (ts : TIMESTAMP) : DATE := ts / MICROS_PER_DAY.

(** [DATEDIFF('minute', a, b)]: the whole-minute counts of both epochs
    subtracted, with the integer division of the engine (rounding towards
    zero). *)
Definition epoch_minutes (ts : TIMESTAMP) : Z :=
  Z.quot (Z.quot ts MICROS_PER_SEC) SECS_PER_MINUTE.

Definition datediff_minute (a b : TIMESTAMP) : Z :=
  epoch_minutes b - epoch_minutes a.

(** [ROUND(x, 2)]: to the nearest hundredth, halves away from zero. *)
Definition round_half_away (q : Q) : Z :=
  if Qle_bool 0 q then Qfloor (q + (1 # 2))%Q else - Qfloor (- q + (1 # 2))%Q.

Definition round2 (q : Q) : Q :=
  (inject_Z (round_half_away (q * 100)%Q) / 100)%Q.

(** ** The staging tables *)

(** [staging.ga4_events], the flattened purchase events.  [event_date] is
    held as the day that its [yyyymmdd] text denotes, [booking_value] and
    [amount] as exact rationals. *)
Module ga4_events.
Record row := mk {
  event_date : option DATE;
  event_timestamp : option Z;
  event_name : option string;
  user_pseudo_id : option string;
  transaction_id : option string;
  booking_value : option Q;
  gclid : option string;
  utm_source : option string;
  utm_campaign : option string
}.
End ga4_events.

(** [staging.salesforce_opportunities] *)
Module salesforce_opportunities.
Record row := mk {
  opportunity_id : option string;
  confirmation_number : option string;
  created_date : option TIMESTAMP;
  property_name : option string;
  check_in_date : option TIMESTAMP;
  check_out_date : option TIMESTAMP;
  nights : option Z;
  amount : option Q;
  stage_name : option string;
  booking_source : option string;
  gclid__c : option string;
  utm_source__c : option string;
  utm_campaign__c : option string
}.
End salesforce_opportunities.

(** ** [build_reconciliation_model]: the two common table expressions *)

Module ga4_bookings.
Record row := mk {
  booking_date : option DATE;
  booking_timestamp : option TIMESTAMP;
  user_pseudo_id : option string;
  transaction_id : option string;
  booking_value : option Q;
  gclid : option string;
  utm_source : option string;
  utm_campaign : option string;
  is_test_booking : bool
}.

(** The [SELECT] list.  [STRPTIME(CAST(event_date AS VARCHAR), '%Y%m%d')]
    is the day in [event_date]; [to_timestamp(event_timestamp / 1000000.0)]
    is the instant [event_timestamp] microseconds after the epoch, read in
    a UTC session when it is later cast to TIMESTAMP. *)
Definition select (e : ga4_events.row) : row :=
  {| booking_date := ga4_events.event_date e;
     booking_timestamp := ga4_events.event_timestamp e;
     user_pseudo_id := ga4_events.user_pseudo_id e;
     transaction_id := ga4_events.transaction_id e;
     booking_value := ga4_events.booking_value e;
     gclid := ga4_events.gclid e;
     utm_source := ga4_events.utm_source e;
     utm_campaign := ga4_events.utm_campaign e;
     is_test_booking :=
       match Sql.case_when
               [(Sql.eq3 String.eqb (ga4_events.user_pseudo_id e)
                         (Some "test_user_internal"%string), true)]
               (Some false) with
       | Some b => b
       | None => false
       end |}.

(** [WHERE transaction_id IS NOT NULL] *)
Definition where_ (e : ga4_events.row) : bool :=
  Sql.holds (Sql.is_not_null (ga4_events.transaction_id e)).

Definition cte (t : list ga4_events.row) : list row :=
  map select (filter where_ t).
End ga4_bookings.

Module sf_opportunities.
Record row := mk {
  opportunity_date : option DATE;
  opportunity_timestamp : option TIMESTAMP;
  transaction_id : option string;
  booking_value : option Q;
  property_name : option string;
  stage_name : option string;
  booking_source : option string;
  gclid : option string;
  utm_source : option string;
  check_in_date : option TIMESTAMP;
  nights : option Z
}.

Definition select (o : salesforce_opportunities.row) : row :=
  {| opportunity_date :=
       option_map cast_date (salesforce_opportunities.created_date o);
     opportunity_timestamp := salesforce_opportunities.created_date o;
     transaction_id := salesforce_opportunities.confirmation_number o;
     booking_value := salesforce_opportunities.amount o;
     property_name := salesforce_opportunities.property_name o;
     stage_name := salesforce_opportunities.stage_name o;
     booking_source := salesforce_opportunities.booking_source o;
     gclid := salesforce_opportunities.gclid__c o;
     utm_source := salesforce_opportunities.utm_source__c o;
     check_in_date := salesforce_opportunities.check_in_date o;
     nights := salesforce_opportunities.nights o |}.

(** [WHERE stage_name != 'Cancelled'] *)
Definition where_ (o : salesforce_opportunities.row) : bool :=
  Sql.holds (Sql.neq3 String.eqb (salesforce_opportunities.stage_name o)
                      (Some "Cancelled"%string)).

Definition cte (t : list salesforce_opportunities.row) : list row :=
  map select (filter where_ t).
End sf_opportunities.

(** ** [build_reconciliation_model]: the join and its [SELECT] list *)

Inductive MatchStatus := matched | ga4_only | sf_only.

Inductive GclidStatus :=
  gclid_matched | gclid_in_ga4_only | gclid_in_sf_only | gclid_mismatch
| no_gclid.

Definition MatchStatus_eqb (a b : MatchStatus) : bool :=
  match a, b with
  | matched, matched | ga4_only, ga4_only | sf_only, sf_only => true
  | _, _ => false
  end.

Module booking_reconciliation.
Record row := mk {
  date : option DATE;
  transaction_id : option string;
  match_status : option MatchStatus;
  ga4_booking_value : option Q;
  ga4_gclid : option string;
  ga4_utm_source : option string;
  is_test_booking : option bool;
  sf_booking_value : option Q;
  property_name : option string;
  stage_name : option string;
  booking_source : option string;
  sf_gclid : option string;
  check_in_date : option TIMESTAMP;
  nights : option Z;
  gclid_status : option GclidStatus;
  time_diff_minutes : option Z
}.

Definition joined : Type :=
  (option ga4_bookings.row * option sf_opportunities.row)%type.

(** [ON g.transaction_id = s.transaction_id] *)
Definition on (g : ga4_bookings.row) (s : sf_opportunities.row) : bool :=
  Sql.holds (Sql.eq3 String.eqb (ga4_bookings.transaction_id g)
                     (sf_opportunities.transaction_id s)).

(** The three [CASE] expressions of the [SELECT] list, over the columns
    they read. *)
Definition match_status_case (g_tid s_tid : option string)
  : option MatchStatus :=
  Sql.case_when
    [(Sql.and3 (Sql.is_not_null g_tid) (Sql.is_not_null s_tid), matched);
     (Sql.and3 (Sql.is_not_null g_tid) (Sql.is_null s_tid), ga4_only);
     (Sql.and3 (Sql.is_null g_tid) (Sql.is_not_null s_tid), sf_only)]
    None.

Definition gclid_status_case (g_gclid s_gclid : option string)
  : option GclidStatus :=
  Sql.case_when
    [(Sql.and3 (Sql.and3 (Sql.is_not_null g_gclid) (Sql.is_not_null s_gclid))
               (Sql.eq3 String.eqb g_gclid s_gclid), gclid_matched);
     (Sql.and3 (Sql.is_not_null g_gclid) (Sql.is_null s_gclid),
      gclid_in_ga4_only);
     (Sql.and3 (Sql.is_null g_gclid) (Sql.is_not_null s_gclid),
      gclid_in_sf_only);
     (Sql.and3 (Sql.and3 (Sql.is_not_null g_gclid) (Sql.is_not_null s_gclid))
               (Sql.neq3 String.eqb g_gclid s_gclid), gclid_mismatch)]
    (Some no_gclid).

(** [CASE WHEN ... THEN DATEDIFF('minute', g_ts, s_ts) END] *)
Definition time_diff_case (g_ts s_ts : option TIMESTAMP) : option Z :=
  if Sql.holds (Sql.and3 (Sql.is_not_null g_ts) (Sql.is_not_null s_ts))
  then match g_ts, s_ts with
       | Some a, Some b => Some (datediff_minute a b)
       | _, _ => None
       end
  else None.

Definition select (j : joined) : row :=
  let g := fst j in
  let s := snd j in
  {| date := Sql.coalesce (Sql.col g ga4_bookings.booking_date)
                          (Sql.col s sf_opportunities.opportunity_date);
     transaction_id :=
       Sql.coalesce (Sql.col g ga4_bookings.transaction_id)
                    (Sql.col s sf_opportunities.transaction_id);
     match_status :=
       match_status_case (Sql.col g ga4_bookings.transaction_id)
                         (Sql.col s sf_opportunities.transaction_id);
     ga4_booking_value := Sql.col g ga4_bookings.booking_value;
     ga4_gclid := Sql.col g ga4_bookings.gclid;
     ga4_utm_source := Sql.col g ga4_bookings.utm_source;
     is_test_booking := option_map ga4_bookings.is_test_booking g;
     sf_booking_value := Sql.col s sf_opportunities.booking_value;
     property_name := Sql.col s sf_opportunities.property_name;
     stage_name := Sql.col s sf_opportunities.stage_name;
     booking_source := Sql.col s sf_opportunities.booking_source;
     sf_gclid := Sql.col s sf_opportunities.gclid;
     check_in_date := Sql.col s sf_opportunities.check_in_date;
     nights := Sql.col s sf_opportunities.nights;
     gclid_status :=
       gclid_status_case (Sql.col g ga4_bookings.gclid)
                         (Sql.col s sf_opportunities.gclid);
     time_diff_minutes :=
       time_diff_case (Sql.col g ga4_bookings.booking_timestamp)
                      (Sql.col s sf_opportunities.opportunity_timestamp) |}.

(** [FROM ga4_bookings g FULL OUTER JOIN sf_opportunities s ON ...] *)
Definition join (ga4 : list ga4_events.row)
    (sf : list salesforce_opportunities.row) : list joined :=
  Sql.full_outer_join on (ga4_bookings.cte ga4) (sf_opportunities.cte sf).

(** The table [reporting.booking_reconciliation]. *)
Definition table (ga4 : list ga4_events.row)
    (sf : list salesforce_opportunities.row) : list row :=
  map select (join ga4 sf).
End booking_reconciliation.

(** ** [data_quality_checks] *)

Module data_quality_checks.
Record result := mk {
  ga4_nulls : nat;
  sf_nulls : nat;
  test_bookings : nat
}.

(** Check 1 counts the NULL keys of both staging tables, check 3 the events
    of the internal test user; the counts are printed and returned. *)
Definition run (ga4 : list ga4_events.row)
    (sf : list salesforce_opportunities.row) : result :=
  {| ga4_nulls :=
       Sql.count_where
         (fun e => Sql.holds (Sql.is_null (ga4_events.transaction_id e))) ga4;
     sf_nulls :=
       Sql.count_where
         (fun o => Sql.holds
                     (Sql.is_null (salesforce_opportunities.confirmation_number o)))
         sf;
     test_bookings :=
       Sql.count_where
         (fun e => Sql.holds
                     (Sql.eq3 String.eqb (ga4_events.user_pseudo_id e)
                              (Some "test_user_internal"%string))) ga4 |}.
End data_quality_checks.

(** ** [generate_reconciliation_report] *)

(** A DOUBLE result: a number, or one of the values that are not numbers
    (an infinity or NaN). *)
Inductive double := Finite (q : Q) | NotFinite.

(** [x / y].  A zero divisor gives NULL, or a non-finite value when the
    engine's [ieee_floating_point_ops] setting is on; the query never sets
    it, so both are covered. *)
Definition sql_div (ieee_floating_point_ops : bool) (x y : option Q)
  : option double :=
  match x, y with
  | Some a, Some b =>
      if Qeq_bool b 0
      then if ieee_floating_point_ops then Some NotFinite else None
      else Some (Finite (a / b))
  | _, _ => None
  end.

Definition sql_times (x : option double) (k : Q) : option double :=
  match x with
  | Some (Finite q) => Some (Finite (q * k))
  | Some NotFinite => Some NotFinite
  | None => None
  end.

(** [ROUND(x, 2)] leaves NULL and the non-finite values as they are. *)
Definition sql_round2 (x : option double) : option double :=
  match x with
  | Some (Finite q) => Some (Finite (round2 q))
  | Some NotFinite => Some NotFinite
  | None => None
  end.

(** [SUM(c)]: NULLs are skipped, and the sum of no value is NULL. *)
Fixpoint sql_sum (c : list (option Q)) : option Q :=
  match c with
  | [] => None
  | None :: rest => sql_sum rest
  | Some q :: rest =>
      match sql_sum rest with
      | None => Some q
      | Some s => Some (q + s)%Q
      end
  end.

Definition sql_minus (x y : option Q) : option Q :=
  match x, y with
  | Some a, Some b => Some (a - b)%Q
  | _, _ => None
  end.

(** [match_status = 'matched'] *)
Definition is_matched (r : booking_reconciliation.row) : option bool :=
  Sql.eq3 MatchStatus_eqb (booking_reconciliation.match_status r) (Some matched).

Definition option_Z_eqb (a b : option Z) : bool :=
  match a, b with
  | Some x, Some y => x =? y
  | None, None => true
  | _, _ => false
  end.

Module daily_trend.
Record row := mk {
  date : option DATE;
  total_bookings : Z;
  matched : Z;
  match_rate_pct : option double
}.

(** [GROUP BY date]: the distinct values of the column, NULL being one of
    them when it occurs. *)
Fixpoint group_keys (dates : list (option DATE)) : list (option DATE) :=
  match dates with
  | [] => []
  | d :: rest =>
      if existsb (option_Z_eqb d) rest then group_keys rest
      else d :: group_keys rest
  end.

(** The aggregates of one group. *)
Definition aggregate (ieee_floating_point_ops : bool)
    (t : list booking_reconciliation.row) (d : option DATE) : row :=
  let group :=
    filter (fun r => option_Z_eqb (booking_reconciliation.date r) d) t in
  let total := Z.of_nat (List.length group) in
  let n_matched :=
    fold_right Z.add 0
      (map (fun r => if Sql.holds (is_matched r) then 1 else 0) group) in
  {| date := d;
     total_bookings := total;
     matched := n_matched;
     match_rate_pct :=
       sql_round2
         (sql_div ieee_floating_point_ops
            (Some (inject_Z n_matched * 100)%Q) (Some (inject_Z total))) |}.

(** [ORDER BY date DESC]: [a] may stand before [b]; NULL sorts last. *)
Definition before (a b : row) : bool :=
  match date a, date b with
  | Some x, Some y => y <=? x
  | Some _, None => true
  | None, Some _ => false
  | None, None => true
  end.

Fixpoint insert (r : row) (sorted : list row) : list row :=
  match sorted with
  | [] => [r]
  | x :: rest => if before r x then r :: sorted else x :: insert r rest
  end.

Definition order_by (rows : list row) : list row := fold_right insert [] rows.

(** [LIMIT 10] *)
Definition limit : nat := 10.

Definition query (ieee_floating_point_ops : bool)
    (t : list booking_reconciliation.row) : list row :=
  firstn limit
    (order_by
       (map (aggregate ieee_floating_point_ops t)
            (group_keys (map booking_reconciliation.date t)))).
End daily_trend.

Module revenue_summary.
Record row := mk {
  total_ga4_revenue : option Q;
  total_sf_revenue : option Q;
  revenue_difference : option Q;
  diff_percentage : option double
}.

(** [WHERE match_status = 'matched'] *)
Definition where_ (r : booking_reconciliation.row) : bool :=
  Sql.holds (is_matched r).

Definition query (ieee_floating_point_ops : bool)
    (t : list booking_reconciliation.row) : row :=
  let rows := filter where_ t in
  let ga4 := sql_sum (map booking_reconciliation.ga4_booking_value rows) in
  let sf := sql_sum (map booking_reconciliation.sf_booking_value rows) in
  {| total_ga4_revenue := ga4;
     total_sf_revenue := sf;
     revenue_difference := sql_minus ga4 sf;
     diff_percentage :=
       sql_round2
         (sql_times (sql_div ieee_floating_point_ops (sql_minus ga4 sf) ga4)
                    100) |}.
End revenue_summary.

(** ** [extract_ga4_events]: flattening [event_params] *)

Module Py.

#[local] Set Warnings "-register-all".

(** The Python objects that a cell of the raw file can evaluate to. *)
Inductive value :=
| Str (s : string)
| Float (q : Q)
| Int (z : Z)
| NoneVal
| Dict (items : list (value * value))
| List_ (elems : list value).

Inductive exn :=
| KeyError (key : string)
| TypeError
| EvalError.

(** An expression yields an object or raises. *)
Inductive result (A : Type) :=
| Ok (a : A)
| Raise (e : exn).
Arguments Ok {A} a.
Arguments Raise {A} e.

Definition bind {A B} (m : result A) (k : A -> result B) : result B :=
  match m with
  | Ok a => k a
  | Raise e => Raise e
  end.

Definition is_str (k : string) (v : value) : bool :=
  match v with Str s => String.eqb k s | _ => false end.

Definition lookup (k : string) (items : list (value * value)) : option value :=
  option_map snd (find (fun kv => is_str k (fst kv)) items).

(** [v[k]] for a string [k]. *)
Definition getitem (v : value) (k : string) : result value :=
  match v with
  | Dict items =>
      match lookup k items with
      | Some x => Ok x
      | None => Raise (KeyError k)
      end
  | _ => Raise TypeError
  end.

(** [k in v] for a string [k]. *)
Definition contains (k : string) (v : value) : result bool :=
  match v with
  | Dict items => Ok (existsb (fun kv => is_str k (fst kv)) items)
  | List_ elems => Ok (existsb (is_str k) elems)
  | Str s => Ok (match index 0 k s with Some _ => true | None => false end)
  | _ => Raise TypeError
  end.

(** [for x in v] *)
Definition iter (v : value) : result (list value) :=
  match v with
  | List_ elems => Ok elems
  | Dict items => Ok (map fst items)
  | Str s => Ok (map (fun c => Str (String c EmptyString)) (list_ascii_of_string s))
  | _ => Raise TypeError
  end.

Definition hashable (v : value) : bool :=
  match v with Dict _ | List_ _ => false | _ => true end.

(** [d[key] = x] on a dict held with its latest binding first. *)
Definition setitem (d : list (value * value)) (key x : value)
  : result (list (value * value)) :=
  if hashable key then Ok ((key, x) :: d) else Raise TypeError.

(** [d.get(k)] *)
Definition get (d : list (value * value)) (k : string) : value :=
  match lookup k d with Some x => x | None => NoneVal end.

End Py.

Notation "x <- m ;; k" := (Py.bind m (fun x => k))
  (at level 61, m at next level, right associativity).

Module extract_ga4_events.

(** A row of [raw_ga4_events.csv] as [iterrows] gives it; [event_params]
    holds what [eval] makes of the cell: an object, or the exception that
    [eval] raises on it. *)
Record raw_row := mk_raw {
  raw_event_date : Py.value;
  raw_event_timestamp : Py.value;
  raw_event_name : Py.value;
  raw_user_pseudo_id : Py.value;
  raw_event_params : Py.result Py.value
}.

Record flattened_event := mk {
  event_date : Py.value;
  event_timestamp : Py.value;
  event_name : Py.value;
  user_pseudo_id : Py.value;
  transaction_id : Py.value;
  booking_value : Py.value;
  gclid : Py.value;
  utm_source : Py.value;
  utm_campaign : Py.value
}.

(** The body of [for param in event_params]. *)
Definition add_param (params_dict : list (Py.value * Py.value))
    (param : Py.value) : Py.result (list (Py.value * Py.value)) :=
  key <- Py.getitem param "key" ;;
  v <- Py.getitem param "value" ;;
  has_string <- Py.contains "string_value" v ;;
  if has_string then
    x <- Py.getitem v "string_value" ;;
    Py.setitem params_dict key x
  else
    has_double <- Py.contains "double_value" v ;;
    if has_double then
      x <- Py.getitem v "double_value" ;;
      Py.setitem params_dict key x
    else Py.Ok params_dict.

Fixpoint add_params (params_dict : list (Py.value * Py.value))
    (params : list Py.value) : Py.result (list (Py.value * Py.value)) :=
  match params with
  | [] => Py.Ok params_dict
  | param :: rest =>
      d <- add_param params_dict param ;;
      add_params d rest
  end.

(** The body of [for _, row in ga4_df.iterrows()]. *)
Definition flatten (row : raw_row) : Py.result flattened_event :=
  event_params <- raw_event_params row ;;
  params <- Py.iter event_params ;;
  params_dict <- add_params [] params ;;
  Py.Ok {| event_date := raw_event_date row;
           event_timestamp := raw_event_timestamp row;
           event_name := raw_event_name row;
           user_pseudo_id := raw_user_pseudo_id row;
           transaction_id := Py.get params_dict "transaction_id";
           booking_value := Py.get params_dict "value";
           gclid := Py.get params_dict "gclid";
           utm_source := Py.get params_dict "utm_source";
           utm_campaign := Py.get params_dict "utm_campaign" |}.

(** The loop: [flattened_events], or the first exception, which leaves the
    task without a table. *)
Fixpoint run (ga4_df : list raw_row) : Py.result (list flattened_event) :=
  match ga4_df with
  | [] => Py.Ok []
  | row :: rest =>
      e <- flatten row ;;
      flattened_events <- run rest ;;
      Py.Ok (e :: flattened_events)
  end.

End extract_ga4_events.

(** ** Counting rows *)

(** [c = 'k'] *)
Definition has_key (k : string) (c : option string) : bool :=
  Sql.holds (Sql.eq3 String.eqb c (Some k)).

(** [SELECT COUNT( * ) ... WHERE transaction_id = 'k'] on the two join
    inputs and on the reconciliation. *)
Definition left_with_key (k : string) (L : list ga4_bookings.row) : nat :=
  Sql.count_where (fun g => has_key k (ga4_bookings.transaction_id g)) L.

Definition right_with_key (k : string) (R : list sf_opportunities.row) : nat :=
  Sql.count_where (fun s => has_key k (sf_opportunities.transaction_id s)) R.

Definition rows_with_key (k : string) (t : list booking_reconciliation.row)
  : nat :=
  Sql.count_where
    (fun r => has_key k (booking_reconciliation.transaction_id r)) t.

(** [SELECT COUNT( * ) ... WHERE match_status = st], the [record_count] of
    the match summary. *)
Definition has_status (st : MatchStatus) (r : booking_reconciliation.row)
  : bool :=
  Sql.holds (Sql.eq3 MatchStatus_eqb (booking_reconciliation.match_status r)
                     (Some st)).

Definition count_status (st : MatchStatus)
    (t : list booking_reconciliation.row) : nat :=
  Sql.count_where (has_status st) t.

(** The number of rows a join emits for a key held by [m] left and [n]
    right rows. *)
Definition fan_out (m n : nat) : nat :=
  match m, n with
  | O, _ => n
  | _, O => m
  | _, _ => (m * n)%nat
  end.

(** The rows of status [st] among those that the join emits for one left
    row with [partners] partners on the right. *)
Definition status_of_left_rows (st : MatchStatus) (partners : nat) : nat :=
  match st with
  | matched => partners
  | ga4_only => if Nat.eqb partners 0 then 1%nat else 0%nat
  | sf_only => 0%nat
  end.

(** ** Reading the daily trend *)


(** [a] stands strictly before [b] under [ORDER BY date DESC]: it is the
    later day, or [b] is the NULL date. *)
Definition newer (a b : option DATE) : Prop :=
  match a, b with
  | Some x, Some y => y < x
  | Some _, None => True
  | None, _ => False
  end.

Definition stands_before (a b : daily_trend.row) : Prop :=
  daily_trend.before a b = true.

(** ** [data_quality_checks]: the duplicate check *)

(** The non-NULL values of a column. *)
Definition non_null {A} (c : list (option A)) : list A :=
  flat_map (fun x => match x with Some a => [a] | None => [] end) c.

(** [COUNT(DISTINCT c)] over the non-NULL values of a text column. *)
Fixpoint distinct_strings (c : list string) : list string :=
  match c with
  | [] => []
  | x :: rest =>
      if existsb (String.eqb x) rest then distinct_strings rest
      else x :: distinct_strings rest
  end.

(** Check 2: [SELECT COUNT( * ) - COUNT(DISTINCT transaction_id) FROM
    staging.ga4_events WHERE transaction_id IS NOT NULL], which is printed. *)
Definition ga4_dupes (ga4 : list ga4_events.row) : Z :=
  let rows :=
    filter (fun e => Sql.holds (Sql.is_not_null (ga4_events.transaction_id e)))
           ga4 in
  Z.of_nat (List.length rows)
  - Z.of_nat (List.length
                (distinct_strings
                   (non_null (map ga4_events.transaction_id rows)))).

(** ** [build_reconciliation_model]: the returned row count *)

(** [SELECT COUNT( * ) FROM reporting.booking_reconciliation] *)
Definition total_records (ga4 : list ga4_events.row)
    (sf : list salesforce_opportunities.row) : nat :=
  Sql.count_where (fun _ => true) (booking_reconciliation.table ga4 sf).

(** ** [generate_reconciliation_report]: the grouped counts *)

Definition option_eqb {A} (eqb : A -> A -> bool) (a b : option A) : bool :=
  match a, b with
  | Some x, Some y => eqb x y
  | None, None => true
  | _, _ => false
  end.

Definition GclidStatus_eqb (a b : GclidStatus) : bool :=
  match a, b with
  | gclid_matched, gclid_matched
  | gclid_in_ga4_only, gclid_in_ga4_only
  | gclid_in_sf_only, gclid_in_sf_only
  | gclid_mismatch, gclid_mismatch
  | no_gclid, no_gclid => true
  | _, _ => false
  end.

(** [x < y] *)
Definition sql_lt (x y : option Q) : option bool :=
  match x, y with
  | Some a, Some b => Some (negb (Qle_bool b a))
  | _, _ => None
  end.

Section GroupBy.
Context {R K : Type} (eqb : K -> K -> bool) (key : R -> K).

(** [GROUP BY key]: the distinct values of the grouping column; NULL is
    one of them when it occurs. *)
Fixpoint groups (t : list R) : list K :=
  match t with
  | [] => []
  | r :: rest =>
      if existsb (fun r' => eqb (key r) (key r')) rest then groups rest
      else key r :: groups rest
  end.

(** [COUNT( * )] of the group of [k]. *)
Definition group_count (t : list R) (k : K) : Z :=
  Z.of_nat (Sql.count_where (fun r => eqb (key r) k) t).

End GroupBy.

Section OrderByCount.
Context {T : Type} (count : T -> Z).

(** [ORDER BY count DESC] *)
Fixpoint insert_by_count (r : T) (sorted : list T) : list T :=
  match sorted with
  | [] => [r]
  | x :: rest =>
      if count x <=? count r then r :: sorted
      else x :: insert_by_count r rest
  end.

Definition order_by_count_desc (rows : list T) : list T :=
  fold_right insert_by_count [] rows.

End OrderByCount.

(** [ROUND(COUNT( * ) * 100.0 / SUM(COUNT( * )) OVER(), 2)] *)
Definition share_pct (ieee_floating_point_ops : bool) (count total : Z)
  : option double :=
  sql_round2
    (sql_div ieee_floating_point_ops
       (Some (inject_Z count * 100)%Q) (Some (inject_Z total))).

Module match_summary.
Record row := mk {
  match_status : option MatchStatus;
  record_count : Z;
  percentage : option double
}.

Definition query (ieee_floating_point_ops : bool)
    (t : list booking_reconciliation.row) : list row :=
  let keys :=
    groups (option_eqb MatchStatus_eqb) booking_reconciliation.match_status t in
  let count :=
    group_count (option_eqb MatchStatus_eqb)
                booking_reconciliation.match_status t in
  let total := fold_right Z.add 0 (map count keys) in
  order_by_count_desc record_count
    (map (fun k => {| match_status := k;
                      record_count := count k;
                      percentage :=
                        share_pct ieee_floating_point_ops (count k) total |})
         keys).
End match_summary.

Module gclid_summary.
Record row := mk {
  gclid_status : option GclidStatus;
  record_count : Z;
  percentage : option double
}.

Definition query (ieee_floating_point_ops : bool)
    (t : list booking_reconciliation.row) : list row :=
  let rows := filter (fun r => Sql.holds (is_matched r)) t in
  let keys :=
    groups (option_eqb GclidStatus_eqb) booking_reconciliation.gclid_status
           rows in
  let count :=
    group_count (option_eqb GclidStatus_eqb)
                booking_reconciliation.gclid_status rows in
  let total := fold_right Z.add 0 (map count keys) in
  order_by_count_desc record_count
    (map (fun k => {| gclid_status := k;
                      record_count := count k;
                      percentage :=
                        share_pct ieee_floating_point_ops (count k) total |})
         keys).
End gclid_summary.

Inductive LikelyReason :=
| Test_Booking                 (* 'Test Booking' *)
| Low_Value                    (* 'Low Value (Possible Fraud)' *)
| Unknown.                     (* 'Unknown - Needs Investigation' *)

Definition LikelyReason_eqb (a b : LikelyReason) : bool :=
  match a, b with
  | Test_Booking, Test_Booking | Low_Value, Low_Value | Unknown, Unknown => true
  | _, _ => false
  end.

Module ga4_only_analysis.
Record row := mk {
  likely_reason : option LikelyReason;
  count : Z
}.

(** The [CASE] of the [SELECT] list. *)
Definition likely_reason_case (r : booking_reconciliation.row)
  : option LikelyReason :=
  Sql.case_when
    [(booking_reconciliation.is_test_booking r, Test_Booking);
     (sql_lt (booking_reconciliation.ga4_booking_value r) (Some 100%Q),
      Low_Value)]
    (Some Unknown).

(** [WHERE match_status = 'ga4_only'] *)
Definition where_ (r : booking_reconciliation.row) : bool :=
  Sql.holds (Sql.eq3 MatchStatus_eqb (booking_reconciliation.match_status r)
                     (Some ga4_only)).

Definition query (t : list booking_reconciliation.row) : list row :=
  let rows := filter where_ t in
  order_by_count_desc count
    (map (fun k => {| likely_reason := k;
                      count := group_count (option_eqb LikelyReason_eqb)
                                           likely_reason_case rows k |})
         (groups (option_eqb LikelyReason_eqb) likely_reason_case rows)).
End ga4_only_analysis.

Module sf_only_analysis.
Record row := mk {
  booking_source : option string;
  count : Z
}.

(** [WHERE match_status = 'sf_only'] *)
Definition where_ (r : booking_reconciliation.row) : bool :=
  Sql.holds (Sql.eq3 MatchStatus_eqb (booking_reconciliation.match_status r)
                     (Some sf_only)).

Definition query (t : list booking_reconciliation.row) : list row :=
  let rows := filter where_ t in
  order_by_count_desc count
    (map (fun k => {| booking_source := k;
                      count := group_count (option_eqb String.eqb)
                                 booking_reconciliation.booking_source rows k |})
         (groups (option_eqb String.eqb)
                 booking_reconciliation.booking_source rows)).
End sf_only_analysis.



Definition Zsum (l : list Z) : Z := fold_right Z.add 0 l.

(** [a] may stand before [b] under [ORDER BY count DESC]. *)
Definition not_fewer {T} (count : T -> Z) (a b : T) : Prop :=
  count b <= count a.

(** ** [extract_ga4_events]: parameters that can be read *)

(** A parameter the loop can read: a dict whose ['key'] is a string and
    whose ['value'] is a dict. *)
Definition readable_param (p : Py.value) (key : string)
    (items : list (Py.value * Py.value)) : Prop :=
  Py.getitem p "key" = Py.Ok (Py.Str key)
  /\ Py.getitem p "value" = Py.Ok (Py.Dict items).

(** What the loop stores for such a parameter, if anything. *)
Definition stored_value (items : list (Py.value * Py.value))
  : option Py.value :=
  match Py.lookup "string_value" items with
  | Some s => Some s
  | None => Py.lookup "double_value" items
  end.

(** ** [generate_sample_data] *)

Module generate_sample_data.

(** [(end - start).days] *)
Definition delta_days (start end_ : TIMESTAMP) : Z :=
  (end_ - start) / MICROS_PER_DAY.

(** [random_date(start, end)], given what the two calls of
    [random.randint] return. *)
Definition random_date (start end_ : TIMESTAMP)
    (random_days random_seconds : Z) : TIMESTAMP :=
  start + (random_days * MICROS_PER_DAY + random_seconds * MICROS_PER_SEC).

(** An integer in an f-string. *)
Definition decimal (n : nat) : string :=
  NilZero.string_of_uint (Nat.to_uint n).

(** [generate_transaction_id()] and the transaction id of a test booking,
    given what [random.randint] returns. *)
Definition generate_transaction_id (n : nat) : string :=
  ("BK" ++ decimal n)%string.

Definition test_transaction_id (n : nat) : string :=
  ("TEST" ++ decimal n)%string.

(** The fields of a base booking that the events are built from. *)
Record booking := mk_booking {
  transaction_id : string;
  booking_datetime : TIMESTAMP;
  user_id : string;
  nights : Z;
  room_rate : Z;
  utm_source : option string;
  utm_campaign : option string;
  gclid : option string
}.

(** [booking_value = room_rate * nights] *)
Definition booking_value (b : booking) : Z := room_rate b * nights b.

(** [if x:] for a string or [None]. *)
Definition truthy (x : option string) : bool :=
  match x with
  | Some s => negb (String.eqb s "")
  | None => false
  end.

Definition string_param (key : string) (s : string) : Py.value :=
  Py.Dict [(Py.Str "key", Py.Str key);
           (Py.Str "value", Py.Dict [(Py.Str "string_value", Py.Str s)])].

Definition double_param (key : string) (x : Q) : Py.value :=
  Py.Dict [(Py.Str "key", Py.Str key);
           (Py.Str "value", Py.Dict [(Py.Str "double_value", Py.Float x)])].

Definition optional_param (key : string) (x : option string) (sent : bool)
  : list Py.value :=
  match x with
  | Some s => if truthy x && sent then [string_param key s] else []
  | None => []
  end.

(** The [event_params] of the GA4 event of a booking; [gclid_sent] is the
    outcome of [random.random() < 0.90]. *)
Definition event_params (b : booking) (gclid_sent : bool) : list Py.value :=
  [string_param "transaction_id" (transaction_id b);
   double_param "value" (inject_Z (booking_value b))]
  ++ optional_param "gclid" (gclid b) gclid_sent
  ++ optional_param "utm_source" (utm_source b) true
  ++ optional_param "utm_campaign" (utm_campaign b) true.

(** [sf_datetime = booking_datetime + timedelta(minutes=k)] *)
Definition sf_datetime (b : booking) (minutes : Z) : TIMESTAMP :=
  booking_datetime b + minutes * (SECS_PER_MINUTE * MICROS_PER_SEC).

End generate_sample_data.

(** ** Sample tables *)

Module Sample.

Definition event (tid : option string) (day : option DATE)
    (ts : option Z) (value : option Q) (click : option string)
  : ga4_events.row :=
  {| ga4_events.event_date := day;
     ga4_events.event_timestamp := ts;
     ga4_events.event_name := Some "purchase"%string;
     ga4_events.user_pseudo_id := Some "user_1000"%string;
     ga4_events.transaction_id := tid;
     ga4_events.booking_value := value;
     ga4_events.gclid := click;
     ga4_events.utm_source := None;
     ga4_events.utm_campaign := None |}.

Definition opportunity (number : option string) (created : option TIMESTAMP)
    (amount : option Q) (stage : option string) (click : option string)
  : salesforce_opportunities.row :=
  {| salesforce_opportunities.opportunity_id := Some "0061"%string;
     salesforce_opportunities.confirmation_number := number;
     salesforce_opportunities.created_date := created;
     salesforce_opportunities.property_name := None;
     salesforce_opportunities.check_in_date := None;
     salesforce_opportunities.check_out_date := None;
     salesforce_opportunities.nights := None;
     salesforce_opportunities.amount := amount;
     salesforce_opportunities.stage_name := stage;
     salesforce_opportunities.booking_source := Some "phone"%string;
     salesforce_opportunities.gclid__c := click;
     salesforce_opportunities.utm_source__c := None;
     salesforce_opportunities.utm_campaign__c := None |}.

(** Day 20000 at 10:00:00 and at 10:07:30. *)
Definition ten_o_clock : TIMESTAMP := 20000 * MICROS_PER_DAY + 36000 * MICROS_PER_SEC.
Definition seven_past_ten : TIMESTAMP := ten_o_clock + 450 * MICROS_PER_SEC.

Definition booking_A : ga4_events.row :=
  event (Some "BK100001"%string) (Some 20000) (Some ten_o_clock)
        (Some 1000%Q) (Some "g1"%string).

Definition confirmed_A : salesforce_opportunities.row :=
  opportunity (Some "BK100001"%string) (Some seven_past_ten) (Some 900%Q)
              (Some "Confirmed"%string) (Some "g1"%string).

(** A second opportunity under the same confirmation number. *)
Definition rebooked_A : salesforce_opportunities.row :=
  opportunity (Some "BK100001"%string) (Some ten_o_clock) (Some 450%Q)
              (Some "Booked"%string) None.

(** An opportunity that carries no confirmation number. *)
Definition unnumbered : salesforce_opportunities.row :=
  opportunity None (Some ten_o_clock) (Some 500%Q)
              (Some "Confirmed"%string) None.

(** An event that carries no transaction id. *)
Definition unkeyed : ga4_events.row :=
  event None (Some 20000) (Some ten_o_clock) (Some 500%Q) None.

(** An event without [event_date], matched by an opportunity of day 20001. *)
Definition undated_B : ga4_events.row :=
  event (Some "BK100002"%string) None (Some ten_o_clock) (Some 300%Q) None.

Definition confirmed_B : salesforce_opportunities.row :=
  opportunity (Some "BK100002"%string) (Some (ten_o_clock + MICROS_PER_DAY))
              (Some 300%Q) (Some "Confirmed"%string) None.

(** Raw events: a purchase with its parameters, a record whose parameter
    has no ['value'], and a record whose cell does not evaluate. *)
Definition param (key : string) (kind : string) (x : Py.value) : Py.value :=
  Py.Dict [(Py.Str "key", Py.Str key);
           (Py.Str "value", Py.Dict [(Py.Str kind, x)])].

Definition raw (event_params : Py.result Py.value)
  : extract_ga4_events.raw_row :=
  {| extract_ga4_events.raw_event_date := Py.Int 20251003;
     extract_ga4_events.raw_event_timestamp := Py.Int 1759485600000000;
     extract_ga4_events.raw_event_name := Py.Str "purchase";
     extract_ga4_events.raw_user_pseudo_id := Py.Str "user_1000";
     extract_ga4_events.raw_event_params := event_params |}.

Definition raw_purchase : extract_ga4_events.raw_row :=
  raw (Py.Ok (Py.List_
                [param "transaction_id" "string_value" (Py.Str "BK100001");
                 param "value" "double_value" (Py.Float 1000);
                 param "nights" "int_value" (Py.Int 3)])).

Definition raw_without_value : extract_ga4_events.raw_row :=
  raw (Py.Ok (Py.List_ [Py.Dict [(Py.Str "key", Py.Str "transaction_id")]])).

Definition raw_unreadable : extract_ga4_events.raw_row :=
  raw (Py.Raise Py.EvalError).


(** A purchase of the internal test user, worth 99.99. *)
Definition test_purchase : ga4_events.row :=
  {| ga4_events.event_date := Some 20000;
     ga4_events.event_timestamp := Some ten_o_clock;
     ga4_events.event_name := Some "purchase"%string;
     ga4_events.user_pseudo_id := Some "test_user_internal"%string;
     ga4_events.transaction_id := Some "TEST1234"%string;
     ga4_events.booking_value := Some (9999 # 100)%Q;
     ga4_events.gclid := None;
     ga4_events.utm_source := None;
     ga4_events.utm_campaign := None |}.

(** A booking that came through a Google ad, without campaign. *)
Definition google_booking : generate_sample_data.booking :=
  {| generate_sample_data.transaction_id := "BK100001";
     generate_sample_data.booking_datetime := ten_o_clock;
     generate_sample_data.user_id := "user_1000";
     generate_sample_data.nights := 4;
     generate_sample_data.room_rate := 250;
     generate_sample_data.utm_source := Some "google"%string;
     generate_sample_data.utm_campaign := None;
     generate_sample_data.gclid := Some "Cj0KCQjw1234QAvD_BwE"%string |}.

(** [START_DATE] and [END_DATE], 1 and 24 October 2025. *)
Definition START_DATE : TIMESTAMP := 20362 * MICROS_PER_DAY.
Definition END_DATE : TIMESTAMP := 20385 * MICROS_PER_DAY.

End Sample.

(** * Properties *)

(** ** Counting over lists *)

Section Counting.
Context {A B : Type}.

Lemma count_where_app (p : A -> bool) (l1 l2 : list A) :
  Sql.count_where p (l1 ++ l2)
  = (Sql.count_where p l1 + Sql.count_where p l2)%nat.
Proof.
  unfold Sql.count_where. now rewrite filter_app, length_app.
Qed.

Lemma count_where_map (f : A -> B) (p : B -> bool) (l : list A) :
  Sql.count_where p (map f l) = Sql.count_where (fun a => p (f a)) l.
Proof.
  unfold Sql.count_where. induction l as [|a l IH]; [reflexivity|].
  cbn. destruct (p (f a)); cbn; now rewrite IH.
Qed.

Lemma count_where_ext_in (p q : A -> bool) (l : list A) :
  (forall a, In a l -> p a = q a) ->
  Sql.count_where p l = Sql.count_where q l.
Proof.
  unfold Sql.count_where. induction l as [|a l IH]; intros H; [reflexivity|].
  cbn. rewrite (H a (or_introl eq_refl)).
  destruct (q a); cbn; rewrite IH; auto; intros; apply H; now right.
Qed.

Lemma count_where_filter (p q : A -> bool) (l : list A) :
  Sql.count_where p (filter q l) = Sql.count_where (fun a => q a && p a) l.
Proof.
  unfold Sql.count_where. induction l as [|a l IH]; [reflexivity|].
  cbn. destruct (q a); cbn; [destruct (p a); cbn|]; now rewrite IH.
Qed.

Lemma count_where_none (p : A -> bool) (l : list A) :
  (forall a, In a l -> p a = false) -> Sql.count_where p l = 0%nat.
Proof.
  intros H. rewrite (count_where_ext_in p (fun _ => false) l H).
  unfold Sql.count_where. clear H. induction l; cbn; auto.
Qed.

Lemma count_where_all (p : A -> bool) (l : list A) :
  (forall a, In a l -> p a = true) -> Sql.count_where p l = List.length l.
Proof.
  intros H. rewrite (count_where_ext_in p (fun _ => true) l H).
  unfold Sql.count_where. clear H. induction l; cbn; auto.
Qed.

Lemma existsb_count_where (p : A -> bool) (l : list A) :
  existsb p l = negb (Nat.eqb (Sql.count_where p l) 0).
Proof.
  unfold Sql.count_where. induction l as [|a l IH]; [reflexivity|].
  cbn. destruct (p a); cbn; auto.
Qed.

(** Counting the pairs of a relation by rows or by columns. *)
Lemma count_pairs_swap (on : A -> B -> bool) (L : list A) (R : list B) :
  list_sum (map (fun a => Sql.count_where (on a) R) L)
  = list_sum (map (fun b => Sql.count_where (fun a => on a b) L) R).
Proof.
  assert (Hcons : forall x l, list_sum (x :: l) = (x + list_sum l)%nat)
    by reflexivity.
  induction L as [|a L IH].
  - induction R as [|b R IHR]; [reflexivity|].
    rewrite map_cons, Hcons, <- IHR. reflexivity.
  - rewrite map_cons, Hcons, IH. clear IH.
    induction R as [|b R IHR]; [reflexivity|].
    rewrite !map_cons, !Hcons, <- IHR.
    unfold Sql.count_where. cbn [filter].
    destruct (on a b); cbn [List.length]; lia.
Qed.

End Counting.

Lemma count_where_flat_map {A B} (f : A -> list B) (p : B -> bool) (l : list A) :
  Sql.count_where p (flat_map f l)
  = list_sum (map (fun a => Sql.count_where p (f a)) l).
Proof.
  induction l as [|a l IH]; [reflexivity|].
  cbn [flat_map]. rewrite count_where_app, IH. reflexivity.
Qed.

Lemma count_where_indicator {A} (p : A -> bool) (l : list A) :
  Sql.count_where p l
  = list_sum (map (fun a => if p a then 1%nat else 0%nat) l).
Proof.
  unfold Sql.count_where. induction l as [|a l IH]; [reflexivity|].
  cbn [filter map]. change (list_sum (?x :: ?r)) with (x + list_sum r)%nat.
  rewrite <- IH. destruct (p a); reflexivity.
Qed.

Lemma list_sum_ones {A} (f : A -> nat) (l : list A) :
  (forall a, In a l -> f a = 1%nat) -> list_sum (map f l) = List.length l.
Proof.
  induction l as [|a l IH]; intros H; [reflexivity|].
  cbn [map List.length]. change (list_sum (?x :: ?r)) with (x + list_sum r)%nat.
  rewrite (H a (or_introl eq_refl)), IH; [reflexivity|].
  intros; apply H; now right.
Qed.

(** ** Conditions and [CASE] expressions *)

Lemma holds_eq3_string (a b : option string) :
  Sql.holds (Sql.eq3 String.eqb a b) = true <->
  exists k, a = Some k /\ b = Some k.
Proof.
  destruct a as [x|], b as [y|]; simpl;
    try (split; [discriminate | intros (k & H1 & H2); discriminate]).
  destruct (String.eqb_spec x y) as [->|Hne]; split; intro H.
  - now exists y.
  - reflexivity.
  - discriminate.
  - destruct H as (k & H1 & H2). congruence.
Qed.

Lemma holds_neq3_string (a b : option string) :
  Sql.holds (Sql.neq3 String.eqb a b) = true <->
  exists x y, a = Some x /\ b = Some y /\ x <> y.
Proof.
  destruct a as [x|], b as [y|]; simpl;
    try (split; [discriminate | intros (u & v & H1 & H2 & _); discriminate]).
  destruct (String.eqb_spec x y) as [->|Hne]; simpl; split; intro H.
  - discriminate.
  - destruct H as (u & v & H1 & H2 & H3). congruence.
  - now exists x, y.
  - reflexivity.
Qed.


(** ** Timing difference *)

Lemma epoch_minutes_quot (ts : TIMESTAMP) :
  epoch_minutes ts = Z.quot ts 60000000.
Proof.
  unfold epoch_minutes, MICROS_PER_SEC, SECS_PER_MINUTE.
  rewrite Z.quot_quot by lia. reflexivity.
Qed.




(** ** The status filter of [sf_opportunities] *)

Lemma sf_where_iff (o : salesforce_opportunities.row) :
  sf_opportunities.where_ o = true <->
  exists st, salesforce_opportunities.stage_name o = Some st
             /\ st <> "Cancelled"%string.
Proof.
  unfold sf_opportunities.where_. rewrite holds_neq3_string. split.
  - intros (x & y & Hx & [= <-] & Hne). now exists x.
  - intros (st & Hst & Hne). now exists st, "Cancelled"%string.
Qed.

(** C9. The status filter admits an opportunity exactly when its
    [stage_name] is present and differs from ['Cancelled']: a record whose
    status is NULL is kept out of the matching input just as a cancelled one
    is, and the matching input holds the admitted records and no other. *)
Theorem null_status_excluded_from_matching
    (sf : list salesforce_opportunities.row) :
  (forall o, sf_opportunities.where_ o = true <->
     exists st, salesforce_opportunities.stage_name o = Some st
                /\ st <> "Cancelled"%string)
  /\ (forall o, salesforce_opportunities.stage_name o = None ->
        sf_opportunities.where_ o = false)
  /\ (forall r, In r (sf_opportunities.cte sf) <->
        exists o, In o sf /\ r = sf_opportunities.select o
                  /\ exists st, salesforce_opportunities.stage_name o = Some st
                                /\ st <> "Cancelled"%string).
Proof.
  split; [exact sf_where_iff | split].
  - intros o Hnull. unfold sf_opportunities.where_. now rewrite Hnull.
  - intros r. unfold sf_opportunities.cte. rewrite in_map_iff. split.
    + intros (o & <- & Hin). apply filter_In in Hin as [Hin Hw].
      exists o. repeat split; auto. now apply sf_where_iff.
    + intros (o & Hin & -> & Hst). exists o. split; [reflexivity|].
      apply filter_In. split; [assumption|]. now apply sf_where_iff.
Qed.

Lemma null_status_excluded_from_matching_witness :
  sf_opportunities.where_
    (Sample.opportunity (Some "BK100003"%string) None None None None) = false
  /\ In (sf_opportunities.select Sample.confirmed_A)
        (sf_opportunities.cte [Sample.confirmed_A]).
Proof.
  split.
  - apply (proj1 (proj2 (null_status_excluded_from_matching []))).
    reflexivity.
  - apply (proj2 (proj2 (null_status_excluded_from_matching
                           [Sample.confirmed_A]))).
    exists Sample.confirmed_A. split; [now left|]. split; [reflexivity|].
    exists "Confirmed"%string. split; [reflexivity | discriminate].
Defined.

(** ** The date of a row *)

(** C10, as stated, fails: an event without [event_date] that matches an
    opportunity gives a ['matched'] row dated by the opportunity. *)
Lemma matched_row_dated_by_right_side :
  exists g s,
    In (Some g, Some s)
       (booking_reconciliation.join [Sample.undated_B] [Sample.confirmed_B])
    /\ booking_reconciliation.match_status
         (booking_reconciliation.select (Some g, Some s)) = Some matched
    /\ booking_reconciliation.date
         (booking_reconciliation.select (Some g, Some s))
       <> ga4_bookings.booking_date g
    /\ booking_reconciliation.date
         (booking_reconciliation.select (Some g, Some s))
       = sf_opportunities.opportunity_date s.
Proof.
  exists (ga4_bookings.select Sample.undated_B),
         (sf_opportunities.select Sample.confirmed_B).
  repeat split.
  - now left.
  - discriminate.
Qed.

(** C10, amended. In a row with both sides present the date is the left
    (GA4) side's event date whenever that date is not NULL, whatever the
    date of the right side; the right (Salesforce) side's date is taken
    when the left side has no date, which is also the case of a row
    without left side. *)
Theorem matched_row_date_prefers_left
    (g : ga4_bookings.row) (s : sf_opportunities.row) :
  let r := booking_reconciliation.select (Some g, Some s) in
  (forall d, ga4_bookings.booking_date g = Some d ->
     booking_reconciliation.date r = Some d)
  /\ (ga4_bookings.booking_date g = None ->
        booking_reconciliation.date r = sf_opportunities.opportunity_date s)
  /\ booking_reconciliation.date (booking_reconciliation.select (None, Some s))
     = sf_opportunities.opportunity_date s.
Proof.
  cbn. repeat split.
  - intros d ->. reflexivity.
  - intros ->. reflexivity.
Qed.

Lemma matched_row_date_prefers_left_witness :
  booking_reconciliation.date
    (booking_reconciliation.select
       (Some (ga4_bookings.select Sample.booking_A),
        Some (sf_opportunities.select Sample.confirmed_B))) = Some 20000
  /\ sf_opportunities.opportunity_date
       (sf_opportunities.select Sample.confirmed_B) = Some 20001.
Proof.
  split.
  - apply (proj1 (matched_row_date_prefers_left
                    (ga4_bookings.select Sample.booking_A)
                    (sf_opportunities.select Sample.confirmed_B))).
    reflexivity.
  - reflexivity.
Defined.

(** ** The join condition *)

Lemma on_left_key (g : ga4_bookings.row) (s : sf_opportunities.row) k :
  ga4_bookings.transaction_id g = Some k ->
  booking_reconciliation.on g s
  = has_key k (sf_opportunities.transaction_id s).
Proof.
  intros Hk. unfold booking_reconciliation.on, has_key. rewrite Hk.
  destruct (sf_opportunities.transaction_id s) as [t|]; [|reflexivity].
  cbn. now rewrite String.eqb_sym.
Qed.

Lemma on_right_key (g : ga4_bookings.row) (s : sf_opportunities.row) k :
  sf_opportunities.transaction_id s = Some k ->
  booking_reconciliation.on g s = has_key k (ga4_bookings.transaction_id g).
Proof.
  intros Hk. unfold booking_reconciliation.on, has_key. now rewrite Hk.
Qed.

Lemma on_left_null (g : ga4_bookings.row) (s : sf_opportunities.row) :
  ga4_bookings.transaction_id g = None ->
  booking_reconciliation.on g s = false.
Proof. intros Hk. unfold booking_reconciliation.on. now rewrite Hk. Qed.

Lemma on_right_null (g : ga4_bookings.row) (s : sf_opportunities.row) :
  sf_opportunities.transaction_id s = None ->
  booking_reconciliation.on g s = false.
Proof.
  intros Hk. unfold booking_reconciliation.on. rewrite Hk.
  now destruct (ga4_bookings.transaction_id g).
Qed.

Lemma on_keys (g : ga4_bookings.row) (s : sf_opportunities.row) :
  booking_reconciliation.on g s = true ->
  exists k, ga4_bookings.transaction_id g = Some k
            /\ sf_opportunities.transaction_id s = Some k.
Proof. apply holds_eq3_string. Qed.

Lemma cte_left_key (ga4 : list ga4_events.row) (g : ga4_bookings.row) :
  In g (ga4_bookings.cte ga4) ->
  exists k, ga4_bookings.transaction_id g = Some k.
Proof.
  unfold ga4_bookings.cte. rewrite in_map_iff.
  intros (e & <- & Hin). apply filter_In in Hin as [_ Hw].
  unfold ga4_bookings.where_ in Hw. cbn.
  destruct (ga4_events.transaction_id e) as [k|]; [now exists k | discriminate].
Qed.

Lemma left_outer_rows_length {A B} (on : A -> B -> bool) (R : list B) (a : A) :
  List.length (Sql.left_outer_rows on R a)
  = Nat.max 1 (Sql.count_where (on a) R).
Proof.
  unfold Sql.left_outer_rows, Sql.count_where.
  destruct (filter (on a) R) as [|b l]; [reflexivity|].
  rewrite length_map. cbn. reflexivity.
Qed.

Lemma has_key_true k (c : option string) : has_key k c = true <-> c = Some k.
Proof.
  unfold has_key. rewrite holds_eq3_string. split.
  - intros (t & -> & [= ->]). reflexivity.
  - intros ->. now exists k.
Qed.

Lemma in_left_outer_rows {A B} (on : A -> B -> bool) (R : list B) (a : A) j :
  In j (Sql.left_outer_rows on R a) ->
  fst j = Some a
  /\ (snd j = None /\ Sql.count_where (on a) R = 0%nat
      \/ exists b, snd j = Some b /\ In b R /\ on a b = true).
Proof.
  unfold Sql.left_outer_rows, Sql.count_where.
  destruct (filter (on a) R) as [|b l] eqn:E.
  - intros [<-|[]]. split; [reflexivity|]. now left.
  - rewrite <- E. rewrite in_map_iff. intros (b' & <- & Hin).
    apply filter_In in Hin as [Hin Hon]. split; [reflexivity|].
    right. now exists b'.
Qed.

(** ** Rows per key *)

Section RowsPerKey.
Variable k : string.
Let keyed (j : booking_reconciliation.joined) : bool :=
  has_key k (booking_reconciliation.transaction_id
               (booking_reconciliation.select j)).

Lemma left_rows_with_key (R : list sf_opportunities.row)
    (g : ga4_bookings.row) :
  Sql.count_where keyed (Sql.left_outer_rows booking_reconciliation.on R g)
  = if has_key k (ga4_bookings.transaction_id g)
    then Nat.max 1 (right_with_key k R) else 0%nat.
Proof.
  destruct (has_key k (ga4_bookings.transaction_id g)) eqn:Hk.
  - apply has_key_true in Hk.
    rewrite count_where_all.
    + etransitivity; [apply left_outer_rows_length|].
      f_equal. unfold right_with_key.
      apply count_where_ext_in. intros s _. now apply on_left_key.
    + intros [og os] Hin. apply in_left_outer_rows in Hin as [Hg _].
      cbn in Hg. subst og. unfold keyed. cbn. rewrite Hk. cbn.
      now rewrite String.eqb_refl.
  - apply count_where_none. intros [og os] Hin.
    apply in_left_outer_rows in Hin as [Hg Hs]. cbn in Hg, Hs. subst og.
    unfold keyed. cbn.
    destruct (ga4_bookings.transaction_id g) as [t|] eqn:Ht; [exact Hk|].
    destruct Hs as [[-> _]|(s & -> & _ & Hon)]; [reflexivity|].
    now rewrite on_left_null in Hon.
Qed.

Lemma unmatched_with_key (L : list ga4_bookings.row)
    (s : sf_opportunities.row) :
  has_key k (sf_opportunities.transaction_id s) = true ->
  Sql.unmatched booking_reconciliation.on L s
  = Nat.eqb (left_with_key k L) 0.
Proof.
  intros Hk. apply has_key_true in Hk. unfold Sql.unmatched, left_with_key.
  rewrite <- (negb_involutive (Nat.eqb _ 0)), <- existsb_count_where.
  f_equal. clear - Hk. induction L as [|g L IH]; [reflexivity|].
  cbn [existsb]. rewrite IH. f_equal. now apply on_right_key.
Qed.

Lemma right_rows_with_key (L : list ga4_bookings.row)
    (R : list sf_opportunities.row) :
  Sql.count_where keyed
    (map (fun s => (None, Some s))
         (filter (Sql.unmatched booking_reconciliation.on L) R))
  = if Nat.eqb (left_with_key k L) 0 then right_with_key k R else 0%nat.
Proof.
  rewrite count_where_map, count_where_filter.
  destruct (Nat.eqb (left_with_key k L) 0) eqn:Hm.
  - apply count_where_ext_in. intros s _. unfold keyed. cbn.
    destruct (has_key k (sf_opportunities.transaction_id s)) eqn:Hk.
    + now rewrite (unmatched_with_key L s Hk), Hm.
    + apply andb_false_r.
  - apply count_where_none. intros s _. unfold keyed. cbn.
    destruct (has_key k (sf_opportunities.transaction_id s)) eqn:Hk.
    + now rewrite (unmatched_with_key L s Hk), Hm.
    + apply andb_false_r.
Qed.

Lemma left_rows_sum (L : list ga4_bookings.row) (c : nat) :
  list_sum
    (map (fun g => if has_key k (ga4_bookings.transaction_id g)
                   then c else 0%nat) L)
  = (left_with_key k L * c)%nat.
Proof.
  unfold left_with_key, Sql.count_where.
  induction L as [|g L IH]; [reflexivity|].
  cbn [map filter]. change (list_sum (?x :: ?r)) with (x + list_sum r)%nat.
  rewrite IH. destruct (has_key k (ga4_bookings.transaction_id g));
    cbn [List.length]; lia.
Qed.

Lemma join_rows_with_key (L : list ga4_bookings.row)
    (R : list sf_opportunities.row) :
  rows_with_key k
    (map booking_reconciliation.select
         (Sql.full_outer_join booking_reconciliation.on L R))
  = fan_out (left_with_key k L) (right_with_key k R).
Proof.
  unfold rows_with_key. rewrite count_where_map.
  change (fun a => has_key k _) with keyed.
  unfold Sql.full_outer_join.
  rewrite count_where_app, count_where_flat_map, right_rows_with_key.
  rewrite (map_ext _ _ (left_rows_with_key R)), left_rows_sum.
  destruct (left_with_key k L) as [|m], (right_with_key k R) as [|n];
    cbn [Nat.eqb fan_out Nat.max]; lia.
Qed.

End RowsPerKey.

(** ** Rows per status *)

Lemma list_sum_map_plus {A} (f h : A -> nat) (l : list A) :
  (list_sum (map f l) + list_sum (map h l))%nat
  = list_sum (map (fun a => (f a + h a)%nat) l).
Proof.
  induction l as [|a l IH]; [reflexivity|].
  cbn [map]. change (list_sum (?x :: ?r)) with (x + list_sum r)%nat.
  rewrite <- IH. lia.
Qed.

Lemma has_status_exclusive (r : booking_reconciliation.row)
    (st st' : MatchStatus) :
  has_status st r = true -> st <> st' -> has_status st' r = false.
Proof.
  unfold has_status.
  destruct (booking_reconciliation.match_status r) as [[]|];
    destruct st, st'; cbn; congruence.
Qed.

Lemma left_rows_status (R : list sf_opportunities.row)
    (g : ga4_bookings.row) (st : MatchStatus) :
  ga4_bookings.transaction_id g <> None ->
  Sql.count_where (fun j => has_status st (booking_reconciliation.select j))
    (Sql.left_outer_rows booking_reconciliation.on R g)
  = status_of_left_rows st (Sql.count_where (booking_reconciliation.on g) R).
Proof.
  intros Hg. destruct (ga4_bookings.transaction_id g) as [t|] eqn:Ht;
    [clear Hg | contradiction].
  unfold Sql.left_outer_rows. unfold Sql.count_where at 2.
  destruct (filter (booking_reconciliation.on g) R) as [|b l] eqn:E.
  - unfold Sql.count_where, has_status. cbn. rewrite Ht.
    destruct st; reflexivity.
  - rewrite <- E, count_where_map.
    assert (Hall : forall s, In s (filter (booking_reconciliation.on g) R) ->
                     has_status matched
                       (booking_reconciliation.select (Some g, Some s)) = true).
    { intros s Hin. apply filter_In in Hin as [_ Hon].
      apply on_keys in Hon as (k & Hk1 & Hk2).
      unfold has_status. cbn. now rewrite Hk1, Hk2. }
    assert (Hlen : List.length (filter (booking_reconciliation.on g) R)
                   <> 0%nat) by (rewrite E; discriminate).
    destruct st; cbn [status_of_left_rows].
    + now apply count_where_all.
    + apply Nat.eqb_neq in Hlen. rewrite Hlen.
      apply count_where_none. intros s Hin.
      apply (has_status_exclusive _ matched); [auto | discriminate].
    + apply count_where_none. intros s Hin.
      apply (has_status_exclusive _ matched); [auto | discriminate].
Qed.

Lemma right_row_status (s : sf_opportunities.row) (st : MatchStatus) :
  has_status st (booking_reconciliation.select (None, Some s))
  = match st, sf_opportunities.transaction_id s with
    | sf_only, Some _ => true
    | _, _ => false
    end.
Proof.
  unfold has_status. cbn.
  destruct (sf_opportunities.transaction_id s); destruct st; reflexivity.
Qed.

Lemma count_status_join (st : MatchStatus) (L : list ga4_bookings.row)
    (R : list sf_opportunities.row) :
  (forall g, In g L -> ga4_bookings.transaction_id g <> None) ->
  count_status st
    (map booking_reconciliation.select
         (Sql.full_outer_join booking_reconciliation.on L R))
  = (list_sum
       (map (fun g => status_of_left_rows st
                        (Sql.count_where (booking_reconciliation.on g) R)) L)
     + Sql.count_where
         (fun s => Sql.unmatched booking_reconciliation.on L s
                   && has_status st
                        (booking_reconciliation.select (None, Some s))) R)%nat.
Proof.
  intros HL. unfold count_status, Sql.full_outer_join.
  rewrite count_where_map, count_where_app, count_where_flat_map.
  rewrite count_where_map, count_where_filter. f_equal.
  f_equal. apply map_ext_in. intros g Hin. apply left_rows_status. auto.
Qed.

Lemma partners_at_most_one (R : list sf_opportunities.row)
    (g : ga4_bookings.row) :
  (forall k, (right_with_key k R <= 1)%nat) ->
  (Sql.count_where (booking_reconciliation.on g) R <= 1)%nat.
Proof.
  intros HR. destruct (ga4_bookings.transaction_id g) as [t|] eqn:Ht.
  - rewrite (count_where_ext_in _ _ R
               (fun s _ => on_left_key g s t Ht)). apply HR.
  - rewrite count_where_none; [lia|]. intros s _. now apply on_left_null.
Qed.

Lemma sources_at_most_one (L : list ga4_bookings.row)
    (s : sf_opportunities.row) :
  (forall k, (left_with_key k L <= 1)%nat) ->
  (Sql.count_where (fun g => booking_reconciliation.on g s) L <= 1)%nat.
Proof.
  intros HL. destruct (sf_opportunities.transaction_id s) as [t|] eqn:Ht.
  - rewrite (count_where_ext_in _ _ L
               (fun g _ => on_right_key g s t Ht)). apply HL.
  - rewrite count_where_none; [lia|]. intros g _. now apply on_right_null.
Qed.

(** C1, as stated, fails: two opportunities under one confirmation number
    give two rows for that key, the later one included. *)
Lemma duplicate_key_gives_two_rows :
  rows_with_key "BK100001"
    (booking_reconciliation.table
       [Sample.booking_A] [Sample.confirmed_A; Sample.rebooked_A]) = 2%nat
  /\ map booking_reconciliation.sf_booking_value
       (booking_reconciliation.table
          [Sample.booking_A] [Sample.confirmed_A; Sample.rebooked_A])
     = [Some 900%Q; Some 450%Q].
Proof. split; reflexivity. Qed.

(** C1, amended. For every key the reconciliation holds [m * n] rows when
    [m >= 1] left and [n >= 1] right records carry the key, and [m + n] rows
    when one side has none: no key of either side is dropped, and a key that
    each side holds at most once has exactly one row.  Duplicate records of
    a key are all joined; none is chosen by timestamp. *)
Theorem rows_per_key (ga4 : list ga4_events.row)
    (sf : list salesforce_opportunities.row) (k : string) :
  let m := left_with_key k (ga4_bookings.cte ga4) in
  let n := right_with_key k (sf_opportunities.cte sf) in
  let rows := rows_with_key k (booking_reconciliation.table ga4 sf) in
  rows = fan_out m n
  /\ (1 <= m + n -> 1 <= rows)%nat
  /\ (m <= 1 -> n <= 1 -> 1 <= m + n -> rows = 1)%nat.
Proof.
  cbn zeta. unfold booking_reconciliation.table, booking_reconciliation.join.
  rewrite join_rows_with_key.
  destruct (left_with_key k (ga4_bookings.cte ga4)) as [|m],
           (right_with_key k (sf_opportunities.cte sf)) as [|n];
    cbn [fan_out]; repeat split; intros; nia.
Qed.

Lemma rows_per_key_witness :
  rows_with_key "BK100001"
    (booking_reconciliation.table [Sample.booking_A] [Sample.confirmed_A])
  = 1%nat.
Proof.
  apply (proj2 (proj2 (rows_per_key [Sample.booking_A] [Sample.confirmed_A]
                                    "BK100001")));
    vm_compute; lia.
Defined.

(** C6, as stated, fails: with two opportunities under the confirmation
    number of one event, matched rows outnumber the left records. *)
Lemma matched_rows_exceed_left_records :
  ~ (count_status matched
       (booking_reconciliation.table
          [Sample.booking_A] [Sample.confirmed_A; Sample.rebooked_A])
     + count_status ga4_only
         (booking_reconciliation.table
            [Sample.booking_A] [Sample.confirmed_A; Sample.rebooked_A])
     <= List.length (ga4_bookings.cte [Sample.booking_A]))%nat.
Proof. vm_compute. lia. Qed.

(** C6, amended. When no key occurs twice among the right records, matched
    and left-only rows together are as many as the left records; when no key
    occurs twice among the left records and every right record has a key,
    matched and right-only rows together are as many as the right records. *)
Theorem conservation_without_collisions (ga4 : list ga4_events.row)
    (sf : list salesforce_opportunities.row) :
  let L := ga4_bookings.cte ga4 in
  let R := sf_opportunities.cte sf in
  let t := booking_reconciliation.table ga4 sf in
  ((forall k, right_with_key k R <= 1) ->
   count_status matched t + count_status ga4_only t = List.length L)%nat
  /\ ((forall k, left_with_key k L <= 1) ->
      (forall s, In s R -> sf_opportunities.transaction_id s <> None) ->
      count_status matched t + count_status sf_only t = List.length R)%nat.
Proof.
  cbn zeta. unfold booking_reconciliation.table, booking_reconciliation.join.
  assert (HL : forall g, In g (ga4_bookings.cte ga4) ->
                 ga4_bookings.transaction_id g <> None).
  { intros g Hin. destruct (cte_left_key ga4 g Hin) as (k & ->). discriminate. }
  rewrite !(count_status_join _ _ _ HL).
  set (L := ga4_bookings.cte ga4). set (R := sf_opportunities.cte sf).
  split.
  - intros HR.
    rewrite !count_where_none
      by (intros s _; rewrite right_row_status;
          destruct (sf_opportunities.transaction_id s); apply andb_false_r).
    rewrite !Nat.add_0_r, list_sum_map_plus. apply list_sum_ones.
    intros g _. pose proof (partners_at_most_one R g HR) as Hle.
    cbn [status_of_left_rows].
    destruct (Sql.count_where (booking_reconciliation.on g) R) as [|[|c]];
      cbn; lia.
  - intros Hleft Hkeys. cbn [status_of_left_rows].
    replace (list_sum (map (fun _ => 0%nat) L)) with 0%nat
      by (clear; induction L; cbn; auto).
    rewrite (count_where_none (fun s => _ && has_status matched _))
      by (intros s _; rewrite right_row_status;
          destruct (sf_opportunities.transaction_id s); apply andb_false_r).
    rewrite (count_pairs_swap booking_reconciliation.on L R).
    rewrite (count_where_indicator _ R).
    rewrite Nat.add_0_r, Nat.add_0_l, list_sum_map_plus.
    apply list_sum_ones. intros s Hin.
    pose proof (sources_at_most_one L s Hleft) as Hle.
    rewrite right_row_status. unfold Sql.unmatched.
    rewrite existsb_count_where.
    specialize (Hkeys s Hin).
    destruct (sf_opportunities.transaction_id s); [|contradiction].
    destruct (Sql.count_where (fun g => booking_reconciliation.on g s) L)
      as [|[|c]]; cbn; lia.
Qed.

Lemma conservation_without_collisions_witness :
  (count_status matched
     (booking_reconciliation.table
        [Sample.booking_A; Sample.undated_B] [Sample.confirmed_A])
   + count_status ga4_only
       (booking_reconciliation.table
          [Sample.booking_A; Sample.undated_B] [Sample.confirmed_A])
   = 2)%nat
  /\ (count_status matched
        (booking_reconciliation.table
           [Sample.booking_A; Sample.undated_B] [Sample.confirmed_A])
      + count_status sf_only
          (booking_reconciliation.table
             [Sample.booking_A; Sample.undated_B] [Sample.confirmed_A])
      = 1)%nat.
Proof.
  split.
  - apply (proj1 (conservation_without_collisions
                    [Sample.booking_A; Sample.undated_B]
                    [Sample.confirmed_A])).
    intros k. unfold right_with_key, Sql.count_where.
    etransitivity; [apply filter_length_le | cbn; lia].
  - apply (proj2 (conservation_without_collisions
                    [Sample.booking_A; Sample.undated_B]
                    [Sample.confirmed_A])).
    + intros k. unfold left_with_key, Sql.count_where, has_key.
      cbn -[String.eqb].
      destruct (String.eqb "BK100001" k) eqn:E1;
        destruct (String.eqb "BK100002" k) eqn:E2;
        cbn -[String.eqb]; try lia.
      apply String.eqb_eq in E1, E2. congruence.
    + intros s [<-|[]]. discriminate.
Defined.

(** ** Revenue reconciliation *)

Lemma revenue_where_iff (r : booking_reconciliation.row) :
  revenue_summary.where_ r = true <->
  booking_reconciliation.match_status r = Some matched.
Proof.
  unfold revenue_summary.where_, is_matched.
  destruct (booking_reconciliation.match_status r) as [[]|]; cbn;
    split; congruence.
Qed.


Lemma round_half_away_comp (p q : Q) :
  (p == q)%Q -> round_half_away p = round_half_away q.
Proof.
  intros E. unfold round_half_away.
  assert (Hb : Qle_bool 0 p = Qle_bool 0 q).
  { destruct (Qle_bool 0 p) eqn:Hp, (Qle_bool 0 q) eqn:Hq; auto.
    - apply Qle_bool_iff in Hp. rewrite E in Hp. apply Qle_bool_iff in Hp.
      congruence.
    - apply Qle_bool_iff in Hq. rewrite <- E in Hq. apply Qle_bool_iff in Hq.
      congruence. }
  rewrite Hb. destruct (Qle_bool 0 q).
  - apply Qfloor_comp. now rewrite E.
  - f_equal. apply Qfloor_comp. now rewrite E.
Qed.

Lemma round2_comp (p q : Q) : (p == q)%Q -> round2 p = round2 q.
Proof.
  intros E. unfold round2. rewrite (round_half_away_comp (p * 100) (q * 100)).
  - reflexivity.
  - now rewrite E.
Qed.



(** ** Daily trend *)

Lemma option_Z_eqb_eq (a b : option Z) : option_Z_eqb a b = true <-> a = b.
Proof.
  destruct a as [x|], b as [y|]; cbn; try (split; congruence).
  rewrite Z.eqb_eq. split; congruence.
Qed.

Lemma group_keys_in (dates : list (option DATE)) (d : option DATE) :
  In d (daily_trend.group_keys dates) <-> In d dates.
Proof.
  induction dates as [|x l IH]; [reflexivity|].
  cbn [daily_trend.group_keys].
  destruct (existsb (option_Z_eqb x) l) eqn:E.
  - rewrite IH. split; [now right|]. intros [<-|H]; [|assumption].
    apply existsb_exists in E as (y & Hy & Heq).
    apply option_Z_eqb_eq in Heq. now subst y.
  - cbn [In]. now rewrite IH.
Qed.

Lemma group_keys_nodup (dates : list (option DATE)) :
  NoDup (daily_trend.group_keys dates).
Proof.
  induction dates as [|x l IH]; [constructor|].
  cbn [daily_trend.group_keys].
  destruct (existsb (option_Z_eqb x) l) eqn:E; [assumption|].
  constructor; [|assumption]. rewrite group_keys_in. intros Hin.
  assert (existsb (option_Z_eqb x) l = true); [|congruence].
  apply existsb_exists. exists x. split; [assumption|].
  now apply option_Z_eqb_eq.
Qed.

Lemma before_total (a b : daily_trend.row) :
  stands_before a b \/ stands_before b a.
Proof.
  unfold stands_before, daily_trend.before.
  destruct (daily_trend.date a), (daily_trend.date b); auto.
  rewrite !Z.leb_le. lia.
Qed.

Lemma before_trans (a b c : daily_trend.row) :
  stands_before a b -> stands_before b c -> stands_before a c.
Proof.
  unfold stands_before, daily_trend.before.
  destruct (daily_trend.date a), (daily_trend.date b), (daily_trend.date c);
    try congruence.
  rewrite !Z.leb_le. lia.
Qed.

Lemma before_distinct (a b : daily_trend.row) :
  stands_before a b -> daily_trend.date a <> daily_trend.date b ->
  newer (daily_trend.date a) (daily_trend.date b).
Proof.
  unfold stands_before, daily_trend.before, newer.
  destruct (daily_trend.date a) as [x|], (daily_trend.date b) as [y|];
    try congruence; auto.
  rewrite Z.leb_le. intros Hle Hne.
  assert (x <> y) by congruence. lia.
Qed.

Lemma insert_perm (r : daily_trend.row) (l : list daily_trend.row) :
  Permutation (r :: l) (daily_trend.insert r l).
Proof.
  induction l as [|x l IH]; [reflexivity|].
  cbn [daily_trend.insert]. destruct (daily_trend.before r x); [reflexivity|].
  rewrite perm_swap. now constructor.
Qed.

Lemma order_by_perm (l : list daily_trend.row) :
  Permutation l (daily_trend.order_by l).
Proof.
  induction l as [|x l IH]; [reflexivity|].
  cbn. rewrite <- insert_perm. now constructor.
Qed.

Lemma insert_sorted (r : daily_trend.row) (l : list daily_trend.row) :
  StronglySorted stands_before l ->
  StronglySorted stands_before (daily_trend.insert r l).
Proof.
  induction 1 as [|x l Hs IH Hx]; [repeat constructor|].
  cbn [daily_trend.insert]. destruct (daily_trend.before r x) eqn:E.
  - constructor; [now constructor|]. constructor; [exact E|].
    eapply Forall_impl; [|exact Hx]. intros y. now apply before_trans.
  - constructor; [assumption|].
    rewrite Forall_forall. intros y Hy.
    apply (Permutation_in _ (Permutation_sym (insert_perm r l))) in Hy.
    destruct Hy as [<-|Hy].
    + destruct (before_total x r) as [H|H]; [assumption|].
      unfold stands_before in H. congruence.
    + rewrite Forall_forall in Hx. auto.
Qed.

Lemma order_by_sorted (l : list daily_trend.row) :
  StronglySorted stands_before (daily_trend.order_by l).
Proof.
  induction l as [|x l IH]; [constructor|]. cbn. now apply insert_sorted.
Qed.

Lemma sorted_distinct_strict (l : list daily_trend.row) :
  StronglySorted stands_before l ->
  NoDup (map daily_trend.date l) ->
  StronglySorted (fun a b => newer (daily_trend.date a) (daily_trend.date b)) l.
Proof.
  induction 1 as [|x l Hs IH Hx]; intros Hnd; [constructor|].
  cbn in Hnd. apply NoDup_cons_iff in Hnd as [Hnotin Hnd].
  constructor; [auto|]. rewrite Forall_forall in *. intros y Hy.
  apply before_distinct; [auto|]. intros Heq. apply Hnotin.
  rewrite Heq. now apply in_map.
Qed.







(** ** Flattening the raw events *)

Lemma run_ok_iff (ga4_df : list extract_ga4_events.raw_row)
    (out : list extract_ga4_events.flattened_event) :
  extract_ga4_events.run ga4_df = Py.Ok out <->
  Forall2 (fun row e => extract_ga4_events.flatten row = Py.Ok e) ga4_df out.
Proof.
  revert out. induction ga4_df as [|row rest IH]; intros out; cbn.
  - split.
    + intros [= <-]. constructor.
    + intros H. inversion H. reflexivity.
  - destruct (extract_ga4_events.flatten row) as [e|x] eqn:E; cbn.
    + destruct (extract_ga4_events.run rest) as [es|x] eqn:Er; cbn.
      * split.
        -- intros [= <-]. constructor; [assumption|]. now apply IH.
        -- intros H. inversion H as [|? e' ? es' He Hes]; subst.
           apply IH in Hes. congruence.
      * split; [discriminate|].
        intros H. inversion H as [|? e' ? es' He Hes]; subst.
        apply IH in Hes. discriminate.
    + split; [discriminate|].
      intros H. inversion H as [|? e' ? es' He Hes]; subst. congruence.
Qed.

Lemma run_raise_iff (ga4_df : list extract_ga4_events.raw_row) (x : Py.exn) :
  extract_ga4_events.run ga4_df = Py.Raise x <->
  exists before row after,
    ga4_df = before ++ row :: after
    /\ Forall (fun r => exists e, extract_ga4_events.flatten r = Py.Ok e) before
    /\ extract_ga4_events.flatten row = Py.Raise x.
Proof.
  induction ga4_df as [|row rest IH]; cbn.
  - split; [discriminate|]. intros (b & r & a & H & _).
    now destruct b.
  - destruct (extract_ga4_events.flatten row) as [e|y] eqn:E; cbn.
    + destruct (extract_ga4_events.run rest) as [es|y] eqn:Er; cbn.
      * split; [discriminate|].
        intros ([|b0 b] & r & a & H & Hb & Hr); cbn in H;
          injection H as -> ->; [congruence|].
        inversion Hb; subst.
        assert (Habs : Py.Ok es = Py.Raise x)
          by (apply IH; now exists b, r, a).
        discriminate.
      * split.
        -- intros [= ->]. destruct (proj1 IH eq_refl) as (b & r & a & -> & Hb & Hr).
           exists (row :: b), r, a. repeat split; auto.
           constructor; [now exists e | assumption].
        -- intros ([|b0 b] & r & a & H & Hb & Hr); cbn in H;
             injection H as -> ->; [congruence|].
           inversion Hb; subst.
           apply IH. now exists b, r, a.
    + split.
      * intros [= ->]. exists [], row, rest. repeat split; auto.
      * intros ([|b0 b] & r & a & H & Hb & Hr); cbn in H;
          injection H as -> ->; [congruence|].
        inversion Hb as [|? ? [e He] ?]; subst. congruence.
Qed.

(** C7, as stated, fails: a parameter without ['value'] in the first record
    ends the extraction with a [KeyError]; the well-formed second record is
    not flattened into any result. *)
Lemma malformed_record_aborts_extraction :
  extract_ga4_events.run [Sample.raw_without_value; Sample.raw_purchase]
  = Py.Raise (Py.KeyError "value")
  /\ (exists e, extract_ga4_events.flatten Sample.raw_purchase = Py.Ok e)
  /\ ~ (exists out,
          extract_ga4_events.run [Sample.raw_without_value; Sample.raw_purchase]
          = Py.Ok out).
Proof.
  repeat split.
  - eexists. reflexivity.
  - intros [out H]. discriminate.
Qed.

(** C7, amended. The extraction is all or nothing.  It raises exactly when
    some record cannot be flattened, with the exception of the first such
    record, and then yields no event at all, whatever the other records
    are; it yields the flattened events, one per record and in order,
    exactly when every record can be flattened.  No record is skipped and
    no option changes this. *)
Theorem extraction_all_or_nothing
    (ga4_df : list extract_ga4_events.raw_row) :
  (forall x, extract_ga4_events.run ga4_df = Py.Raise x <->
     exists before row after,
       ga4_df = before ++ row :: after
       /\ Forall (fun r => exists e, extract_ga4_events.flatten r = Py.Ok e)
                 before
       /\ extract_ga4_events.flatten row = Py.Raise x)
  /\ (forall out, extract_ga4_events.run ga4_df = Py.Ok out <->
        Forall2 (fun row e => extract_ga4_events.flatten row = Py.Ok e)
                ga4_df out).
Proof.
  split; [intros x; apply run_raise_iff | intros out; apply run_ok_iff].
Qed.

(** ** Records without a business key *)

Lemma ga4_null_key_dropped (ga4 : list ga4_events.row)
    (g : ga4_bookings.row) :
  In g (ga4_bookings.cte ga4) -> ga4_bookings.transaction_id g <> None.
Proof.
  intros Hin. destruct (cte_left_key ga4 g Hin) as (k & ->). discriminate.
Qed.

Lemma sf_null_key_kept (ga4 : list ga4_events.row)
    (sf : list salesforce_opportunities.row)
    (o : salesforce_opportunities.row) :
  In o sf ->
  sf_opportunities.where_ o = true ->
  salesforce_opportunities.confirmation_number o = None ->
  In (None, Some (sf_opportunities.select o))
     (booking_reconciliation.join ga4 sf)
  /\ booking_reconciliation.match_status
       (booking_reconciliation.select (None, Some (sf_opportunities.select o)))
     = None.
Proof.
  intros Hin Hw Hnull. split.
  - unfold booking_reconciliation.join, Sql.full_outer_join.
    apply in_or_app. right.
    apply (in_map (fun b => (None, Some b))). apply filter_In. split.
    + unfold sf_opportunities.cte. apply in_map. apply filter_In. now split.
    + unfold Sql.unmatched. apply negb_true_iff.
      apply not_true_is_false. intros Hex.
      apply existsb_exists in Hex as (g & _ & Hon).
      now rewrite on_right_null in Hon.
  - cbn. now rewrite Hnull.
Qed.

(** C2, on the code. An opportunity without confirmation number is counted
    by the quality check and is not dropped: it reaches the reconciliation
    as a row without key and without match status.  An event without
    transaction id is counted and dropped. *)
Theorem unnumbered_opportunity_reaches_reconciliation :
  data_quality_checks.sf_nulls
    (data_quality_checks.run [] [Sample.unnumbered]) = 1%nat
  /\ map (fun r => (booking_reconciliation.transaction_id r,
                    booking_reconciliation.match_status r,
                    booking_reconciliation.sf_booking_value r))
         (booking_reconciliation.table [] [Sample.unnumbered])
     = [(None, None, Some 500%Q)]
  /\ data_quality_checks.ga4_nulls
       (data_quality_checks.run [Sample.unkeyed] []) = 1%nat
  /\ booking_reconciliation.table [Sample.unkeyed] [] = [].
Proof. repeat split. Qed.

(** ** The rows of the join *)

Lemma in_full_outer_join {A B} (on : A -> B -> bool) (L : list A)
    (R : list B) (oa : option A) (ob : option B) :
  In (oa, ob) (Sql.full_outer_join on L R) <->
  match oa, ob with
  | Some a, Some b => In a L /\ In b R /\ on a b = true
  | Some a, None => In a L /\ forall b, In b R -> on a b = false
  | None, Some b => In b R /\ forall a, In a L -> on a b = false
  | None, None => False
  end.
Proof.
  unfold Sql.full_outer_join. rewrite in_app_iff, in_flat_map, in_map_iff.
  split.
  - intros [(a & Ha & Hin)|(b & [= <- <-] & Hin)].
    + unfold Sql.left_outer_rows in Hin.
      destruct (filter (on a) R) as [|b0 l] eqn:E.
      * destruct Hin as [[= <- <-]|[]]. split; [assumption|].
        intros b Hb. destruct (on a b) eqn:Hon; [|reflexivity].
        assert (Hf : In b (filter (on a) R)) by (apply filter_In; auto).
        rewrite E in Hf. contradiction.
      * rewrite <- E in Hin. apply in_map_iff in Hin as (b & [= <- <-] & Hb).
        apply filter_In in Hb as [Hb Hon]. auto.
    + apply filter_In in Hin as [Hb Hun]. split; [assumption|].
      intros a Ha. unfold Sql.unmatched in Hun. apply negb_true_iff in Hun.
      destruct (on a b) eqn:Hon; [|reflexivity].
      assert (Hex : existsb (fun a => on a b) L = true)
        by (apply existsb_exists; now exists a).
      congruence.
  - destruct oa as [a|], ob as [b|]; [| | |contradiction].
    + intros (Ha & Hb & Hon). left. exists a. split; [assumption|].
      unfold Sql.left_outer_rows.
      assert (Hf : In b (filter (on a) R)) by (apply filter_In; auto).
      destruct (filter (on a) R) as [|b0 l] eqn:E; [contradiction|].
      apply (in_map (fun b => (Some a, Some b))). assumption.
    + intros (Ha & Hnone). left. exists a. split; [assumption|].
      unfold Sql.left_outer_rows.
      destruct (filter (on a) R) as [|b0 l] eqn:E; [now left|].
      assert (Hf : In b0 (filter (on a) R)) by (rewrite E; now left).
      apply filter_In in Hf as [Hb Hon]. rewrite (Hnone b0 Hb) in Hon.
      discriminate.
    + intros (Hb & Hnone). right. exists b. split; [reflexivity|].
      apply filter_In. split; [assumption|]. unfold Sql.unmatched.
      apply negb_true_iff. apply not_true_is_false. intros Hex.
      apply existsb_exists in Hex as (a & Ha & Hon).
      rewrite (Hnone a Ha) in Hon. discriminate.
Qed.

Lemma on_false_iff (g : ga4_bookings.row) (s : sf_opportunities.row) :
  ga4_bookings.transaction_id g <> None ->
  (booking_reconciliation.on g s = false <->
   sf_opportunities.transaction_id s <> ga4_bookings.transaction_id g).
Proof.
  intros Hg. destruct (booking_reconciliation.on g s) eqn:Hon.
  - apply on_keys in Hon as (k & Hk1 & Hk2). split; [discriminate|].
    intros H. congruence.
  - split; [|reflexivity]. intros _ Heq.
    destruct (ga4_bookings.transaction_id g) as [k|] eqn:Hk; [|contradiction].
    assert (booking_reconciliation.on g s = true); [|congruence].
    apply holds_eq3_string. exists k. now rewrite Hk.
Qed.

(** X1. The rows of the join are exactly these: a pair of an event and an
    opportunity of the two inputs that carry the same key; an event of the
    left input whose key no opportunity carries, alone; an opportunity of
    the right input whose key no event carries, alone.  No record of either
    input is left out and no row comes from elsewhere. *)
Theorem join_rows_are_key_pairs (ga4 : list ga4_events.row)
    (sf : list salesforce_opportunities.row)
    (og : option ga4_bookings.row) (os : option sf_opportunities.row) :
  In (og, os) (booking_reconciliation.join ga4 sf) <->
  match og, os with
  | Some g, Some s =>
      In g (ga4_bookings.cte ga4) /\ In s (sf_opportunities.cte sf)
      /\ exists k, ga4_bookings.transaction_id g = Some k
                   /\ sf_opportunities.transaction_id s = Some k
  | Some g, None =>
      In g (ga4_bookings.cte ga4)
      /\ forall s, In s (sf_opportunities.cte sf) ->
           sf_opportunities.transaction_id s <> ga4_bookings.transaction_id g
  | None, Some s =>
      In s (sf_opportunities.cte sf)
      /\ forall g, In g (ga4_bookings.cte ga4) ->
           ga4_bookings.transaction_id g <> sf_opportunities.transaction_id s
  | None, None => False
  end.
Proof.
  unfold booking_reconciliation.join. rewrite in_full_outer_join.
  destruct og as [g|], os as [s|]; [| | |reflexivity].
  - split; intros (Hg & Hs & H); repeat split; auto.
    + now apply on_keys.
    + now apply holds_eq3_string.
  - split; intros (Hg & H); (split; [assumption|]); intros s Hs;
      apply (on_false_iff g s (ga4_null_key_dropped ga4 g Hg)); auto.
  - split; intros (Hs & H); (split; [assumption|]); intros g Hg.
    + intros Heq. symmetry in Heq. revert Heq.
      apply (on_false_iff g s (ga4_null_key_dropped ga4 g Hg)). auto.
    + apply (on_false_iff g s (ga4_null_key_dropped ga4 g Hg)).
      intros Heq. now apply (H g Hg).
Qed.

Lemma join_row_sides (ga4 : list ga4_events.row)
    (sf : list salesforce_opportunities.row)
    (j : booking_reconciliation.joined) :
  In j (booking_reconciliation.join ga4 sf) ->
  match j with
  | (Some g, Some s) =>
      exists k, ga4_bookings.transaction_id g = Some k
                /\ sf_opportunities.transaction_id s = Some k
  | (Some g, None) => exists k, ga4_bookings.transaction_id g = Some k
  | (None, Some s) => True
  | (None, None) => False
  end.
Proof.
  destruct j as [og os]. intros Hin.
  apply join_rows_are_key_pairs in Hin.
  destruct og as [g|], os as [s|]; auto.
  - tauto.
  - destruct Hin as [Hg _]. now apply cte_left_key in Hg.
Qed.

(** X2. In every row of the reconciliation the match status tells which
    sides are present: ['matched'] exactly for a pair, ['ga4_only'] exactly
    for an event alone, ['sf_only'] exactly for an opportunity alone that
    has a confirmation number; the status is NULL exactly for an
    opportunity alone without confirmation number. *)
Theorem match_status_tells_sides (ga4 : list ga4_events.row)
    (sf : list salesforce_opportunities.row)
    (j : booking_reconciliation.joined) :
  In j (booking_reconciliation.join ga4 sf) ->
  let status :=
    booking_reconciliation.match_status (booking_reconciliation.select j) in
  (status = Some matched <-> exists g s, j = (Some g, Some s))
  /\ (status = Some ga4_only <-> exists g, j = (Some g, None))
  /\ (status = Some sf_only <->
        exists s, j = (None, Some s)
                  /\ sf_opportunities.transaction_id s <> None)
  /\ (status = None <->
        exists s, j = (None, Some s)
                  /\ sf_opportunities.transaction_id s = None).
Proof.
  intros Hin. apply join_row_sides in Hin. cbn zeta.
  destruct j as [[g|] [s|]]; cbn; [| | |contradiction].
  - destruct Hin as (k & -> & ->). cbn. repeat split; try discriminate.
    + intros _. now exists g, s.
    + intros (g' & H). discriminate.
    + intros (s' & H & _). discriminate.
    + intros (s' & H & _). discriminate.
  - destruct Hin as (k & ->). cbn. repeat split; try discriminate.
    + intros (g' & s' & H). discriminate.
    + intros _. now exists g.
    + intros (s' & H & _). discriminate.
    + intros (s' & H & _). discriminate.
  - destruct (sf_opportunities.transaction_id s) as [k|] eqn:Hk; cbn;
      repeat split; try discriminate.
    + intros (g' & s' & H). discriminate.
    + intros (g' & H). discriminate.
    + intros _. exists s. split; [reflexivity|]. rewrite Hk. discriminate.
    + intros (s' & [= <-] & H). congruence.
    + intros (g' & s' & H). discriminate.
    + intros (g' & H). discriminate.
    + intros (s' & [= <-] & H). congruence.
    + intros _. now exists s.
Qed.

Lemma match_status_tells_sides_witness :
  booking_reconciliation.match_status
    (booking_reconciliation.select
       (None, Some (sf_opportunities.select Sample.unnumbered))) = None
  /\ booking_reconciliation.match_status
       (booking_reconciliation.select
          (Some (ga4_bookings.select Sample.booking_A),
           Some (sf_opportunities.select Sample.confirmed_A)))
     = Some matched.
Proof.
  split.
  - apply (proj2 (proj2 (proj2
             (match_status_tells_sides
                [Sample.booking_A] [Sample.confirmed_A; Sample.unnumbered]
                (None, Some (sf_opportunities.select Sample.unnumbered))
                ltac:(right; left; reflexivity))))).
    eexists. split; reflexivity.
  - apply (proj1 (match_status_tells_sides
                    [Sample.booking_A] [Sample.confirmed_A; Sample.unnumbered]
                    (Some (ga4_bookings.select Sample.booking_A),
                     Some (sf_opportunities.select Sample.confirmed_A))
                    ltac:(left; reflexivity))).
    eexists. eexists. reflexivity.
Defined.

(** X3. The key of a row is the key of each side it has: an event in a row
    always has a key and it is the row's key, an opportunity in a row has
    the row's key, so the two sides of a matched row agree on it. *)
Theorem row_key_is_the_key_of_its_sides (ga4 : list ga4_events.row)
    (sf : list salesforce_opportunities.row)
    (j : booking_reconciliation.joined) :
  In j (booking_reconciliation.join ga4 sf) ->
  let key :=
    booking_reconciliation.transaction_id (booking_reconciliation.select j) in
  (forall g, fst j = Some g ->
     key = ga4_bookings.transaction_id g /\ key <> None)
  /\ (forall s, snd j = Some s -> key = sf_opportunities.transaction_id s).
Proof.
  intros Hin. apply join_row_sides in Hin. cbn zeta.
  destruct j as [[g|] [s|]]; cbn; [| | |contradiction].
  - destruct Hin as (k & Hg & Hs). rewrite Hg, Hs. cbn. split.
    + intros g' [= <-]. rewrite Hg. split; [reflexivity | discriminate].
    + intros s' [= <-]. now rewrite Hs.
  - destruct Hin as (k & Hg). rewrite Hg. cbn. split.
    + intros g' [= <-]. rewrite Hg. split; [reflexivity | discriminate].
    + discriminate.
  - split; [discriminate|]. now intros s' [= <-].
Qed.

Lemma row_key_is_the_key_of_its_sides_witness :
  booking_reconciliation.transaction_id
    (booking_reconciliation.select
       (Some (ga4_bookings.select Sample.booking_A),
        Some (sf_opportunities.select Sample.confirmed_A)))
  = sf_opportunities.transaction_id (sf_opportunities.select Sample.confirmed_A).
Proof.
  apply (proj2 (row_key_is_the_key_of_its_sides
                  [Sample.booking_A] [Sample.confirmed_A]
                  (Some (ga4_bookings.select Sample.booking_A),
                   Some (sf_opportunities.select Sample.confirmed_A))
                  ltac:(left; reflexivity))).
  reflexivity.
Defined.

(** X4. A row that is not matched carries nothing of the missing side: in
    a ['ga4_only'] row every Salesforce column and the time difference are
    NULL and the click status is [gclid_in_ga4_only] or [no_gclid]; in a
    ['sf_only'] row every GA4 column, the test flag and the time difference
    are NULL and the click status is [gclid_in_sf_only] or [no_gclid]. *)
Theorem one_sided_rows_are_padded (ga4 : list ga4_events.row)
    (sf : list salesforce_opportunities.row)
    (j : booking_reconciliation.joined) :
  In j (booking_reconciliation.join ga4 sf) ->
  let r := booking_reconciliation.select j in
  (booking_reconciliation.match_status r = Some ga4_only ->
   booking_reconciliation.sf_booking_value r = None
   /\ booking_reconciliation.property_name r = None
   /\ booking_reconciliation.stage_name r = None
   /\ booking_reconciliation.booking_source r = None
   /\ booking_reconciliation.sf_gclid r = None
   /\ booking_reconciliation.check_in_date r = None
   /\ booking_reconciliation.nights r = None
   /\ booking_reconciliation.time_diff_minutes r = None
   /\ (booking_reconciliation.gclid_status r = Some gclid_in_ga4_only
       \/ booking_reconciliation.gclid_status r = Some no_gclid))
  /\ (booking_reconciliation.match_status r = Some sf_only ->
      booking_reconciliation.ga4_booking_value r = None
      /\ booking_reconciliation.ga4_gclid r = None
      /\ booking_reconciliation.ga4_utm_source r = None
      /\ booking_reconciliation.is_test_booking r = None
      /\ booking_reconciliation.time_diff_minutes r = None
      /\ (booking_reconciliation.gclid_status r = Some gclid_in_sf_only
          \/ booking_reconciliation.gclid_status r = Some no_gclid)).
Proof.
  intros Hin. cbn zeta.
  pose proof (match_status_tells_sides ga4 sf j Hin) as (_ & Hl & Hr & _).
  cbn zeta in Hl, Hr. split.
  - intros Hst. apply Hl in Hst as (g & ->). cbn.
    repeat split; try reflexivity.
    + unfold booking_reconciliation.time_diff_case.
      now destruct (ga4_bookings.booking_timestamp g).
    + unfold booking_reconciliation.gclid_status_case.
      destruct (ga4_bookings.gclid g); cbn; auto.
  - intros Hst. apply Hr in Hst as (s & -> & _). cbn.
    repeat split; try reflexivity.
    unfold booking_reconciliation.gclid_status_case.
    destruct (sf_opportunities.gclid s); cbn; auto.
Qed.

Lemma one_sided_rows_are_padded_witness :
  booking_reconciliation.sf_booking_value
    (booking_reconciliation.select
       (Some (ga4_bookings.select Sample.booking_A), None)) = None.
Proof.
  apply (proj1 (one_sided_rows_are_padded [Sample.booking_A] []
                  (Some (ga4_bookings.select Sample.booking_A), None)
                  ltac:(left; reflexivity))).
  reflexivity.
Defined.


(** ** The quality checks and the reconciliation *)

Lemma count_where_negb {A} (p : A -> bool) (l : list A) :
  (Sql.count_where p l + Sql.count_where (fun a => negb (p a)) l)%nat
  = List.length l.
Proof.
  unfold Sql.count_where. induction l as [|a l IH]; [reflexivity|].
  cbn. destruct (p a); cbn; lia.
Qed.

(** X6. The null count of the quality check is the number of events that
    the reconciliation leaves out: the events counted as having no
    transaction id and the events that enter the join are together all
    events of the staging table. *)
Theorem ga4_nulls_are_the_dropped_events (ga4 : list ga4_events.row)
    (sf : list salesforce_opportunities.row) :
  (data_quality_checks.ga4_nulls (data_quality_checks.run ga4 sf)
   + List.length (ga4_bookings.cte ga4))%nat
  = List.length ga4.
Proof.
  unfold data_quality_checks.run, ga4_bookings.cte. cbn.
  rewrite length_map, <- (count_where_negb ga4_bookings.where_ ga4).
  rewrite Nat.add_comm. f_equal. apply count_where_ext_in. intros e _.
  unfold ga4_bookings.where_. now destruct (ga4_events.transaction_id e).
Qed.

Lemma list_sum_zero (l : list nat) :
  (forall n, In n l -> n = 0%nat) -> list_sum l = 0%nat.
Proof.
  induction l as [|x l IH]; intros H; [reflexivity|].
  change (list_sum (x :: l)) with (x + list_sum l)%nat.
  rewrite (H x (or_introl eq_refl)), IH; [reflexivity|].
  intros; apply H; now right.
Qed.

Lemma count_where_and_le {A} (p q : A -> bool) (l : list A) :
  (Sql.count_where (fun a => p a && q a) l <= Sql.count_where q l)%nat.
Proof.
  unfold Sql.count_where. induction l as [|a l IH]; [reflexivity|].
  cbn. destruct (p a), (q a); cbn; lia.
Qed.

Lemma left_rows_have_status (R : list sf_opportunities.row)
    (g : ga4_bookings.row) :
  ga4_bookings.transaction_id g <> None ->
  Sql.count_where
    (fun j => Sql.holds
                (Sql.is_null (booking_reconciliation.match_status
                                (booking_reconciliation.select j))))
    (Sql.left_outer_rows booking_reconciliation.on R g) = 0%nat.
Proof.
  intros Hg. apply count_where_none. intros [og os] Hin.
  apply in_left_outer_rows in Hin as [Hfst Hsnd]. cbn in Hfst, Hsnd.
  subst og. cbn.
  destruct (ga4_bookings.transaction_id g) as [k|]; [|contradiction].
  destruct Hsnd as [[-> _]|(s & -> & _ & Hon)]; [reflexivity|].
  apply on_keys in Hon as (k' & _ & Hs). cbn. now rewrite Hs.
Qed.

(** X7. The rows of the reconciliation without match status are as many
    as the opportunities that pass the stage filter without confirmation
    number, whatever the events are, and so never more than the null count
    that the quality check reports for Salesforce. *)
Theorem rows_without_status_are_unnumbered_opportunities
    (ga4 : list ga4_events.row) (sf : list salesforce_opportunities.row) :
  let without_status :=
    Sql.count_where
      (fun r => Sql.holds
                  (Sql.is_null (booking_reconciliation.match_status r)))
      (booking_reconciliation.table ga4 sf) in
  without_status
  = Sql.count_where
      (fun o => sf_opportunities.where_ o
                && Sql.holds
                     (Sql.is_null
                        (salesforce_opportunities.confirmation_number o))) sf
  /\ (without_status
      <= data_quality_checks.sf_nulls (data_quality_checks.run ga4 sf))%nat.
Proof.
  cbn zeta.
  assert (E : Sql.count_where
      (fun r => Sql.holds
                  (Sql.is_null (booking_reconciliation.match_status r)))
      (booking_reconciliation.table ga4 sf)
    = Sql.count_where
      (fun o => sf_opportunities.where_ o
                && Sql.holds
                     (Sql.is_null
                        (salesforce_opportunities.confirmation_number o))) sf).
  { unfold booking_reconciliation.table, booking_reconciliation.join,
      Sql.full_outer_join.
    rewrite count_where_map, count_where_app, count_where_flat_map.
    rewrite list_sum_zero.
    2:{ intros n Hn. apply in_map_iff in Hn as (g & <- & Hg).
        apply left_rows_have_status. now apply (ga4_null_key_dropped ga4). }
    rewrite Nat.add_0_l, count_where_map, count_where_filter.
    unfold sf_opportunities.cte. rewrite count_where_map, count_where_filter.
    apply count_where_ext_in. intros o _. f_equal. cbn.
    destruct (salesforce_opportunities.confirmation_number o) as [k|] eqn:Hk;
      cbn; [apply andb_false_r|].
    rewrite andb_true_r. unfold Sql.unmatched. apply negb_true_iff.
    apply not_true_is_false. intros Hex.
    apply existsb_exists in Hex as (g & _ & Hon).
    rewrite on_right_null in Hon; [discriminate | exact Hk]. }
  split; [exact E|]. rewrite E. unfold data_quality_checks.run. cbn.
  apply count_where_and_le.
Qed.

Lemma distinct_strings_in (l : list string) (x : string) :
  In x (distinct_strings l) <-> In x l.
Proof.
  induction l as [|y l IH]; [reflexivity|]. cbn [distinct_strings].
  destruct (existsb (String.eqb y) l) eqn:E.
  - rewrite IH. split; [now right|]. intros [<-|H]; [|assumption].
    apply existsb_exists in E as (z & Hz & Heq).
    apply String.eqb_eq in Heq. now subst z.
  - cbn [In]. now rewrite IH.
Qed.

Lemma distinct_strings_length (l : list string) :
  (List.length (distinct_strings l) <= List.length l)%nat.
Proof.
  induction l as [|y l IH]; [reflexivity|]. cbn [distinct_strings].
  destruct (existsb (String.eqb y) l); cbn; lia.
Qed.

Lemma distinct_strings_all (l : list string) :
  List.length (distinct_strings l) = List.length l <-> NoDup l.
Proof.
  induction l as [|y l IH]; [split; [constructor | reflexivity]|].
  cbn [distinct_strings].
  pose proof (distinct_strings_length l) as Hle.
  destruct (existsb (String.eqb y) l) eqn:E.
  - split.
    + cbn. lia.
    + intros Hnd. apply NoDup_cons_iff in Hnd as [Hnotin _].
      apply existsb_exists in E as (z & Hz & Heq).
      apply String.eqb_eq in Heq. now subst z.
  - cbn [List.length]. split.
    + intros [= Hlen]. constructor; [|now apply IH].
      intros Hin. assert (existsb (String.eqb y) l = true); [|congruence].
      apply existsb_exists. exists y. split; [assumption|].
      apply String.eqb_refl.
    + intros Hnd. apply NoDup_cons_iff in Hnd as [_ Hnd]. f_equal.
      now apply IH.
Qed.

Lemma count_occ_non_null (c : list (option string)) (k : string) :
  count_occ string_dec (non_null c) k = Sql.count_where (has_key k) c.
Proof.
  unfold Sql.count_where, non_null.
  induction c as [|[t|] c IH]; [reflexivity | |exact IH].
  cbn [flat_map app filter]. unfold has_key at 1. cbn [Sql.eq3 Sql.holds].
  destruct (string_dec t k) as [->|Hne].
  - rewrite String.eqb_refl, count_occ_cons_eq by reflexivity.
    cbn [List.length]. now rewrite IH.
  - rewrite count_occ_cons_neq by assumption.
    apply String.eqb_neq in Hne. now rewrite Hne.
Qed.

Lemma non_null_length (c : list (option string)) :
  Forall (fun x => x <> None) c ->
  List.length (non_null c) = List.length c.
Proof.
  induction 1 as [|[t|] c Hx Hc IH]; [reflexivity | |contradiction].
  unfold non_null in *. cbn. now rewrite IH.
Qed.

Lemma keys_with_key (ga4 : list ga4_events.row) (k : string) :
  left_with_key k (ga4_bookings.cte ga4)
  = count_occ string_dec
      (non_null
         (map ga4_events.transaction_id
              (filter (fun e => Sql.holds
                                  (Sql.is_not_null
                                     (ga4_events.transaction_id e))) ga4)))
      k.
Proof.
  rewrite count_occ_non_null, count_where_map.
  unfold left_with_key, ga4_bookings.cte. now rewrite count_where_map.
Qed.

Lemma non_null_keys_length (ga4 : list ga4_events.row) :
  List.length
    (non_null
       (map ga4_events.transaction_id
            (filter (fun e => Sql.holds
                                (Sql.is_not_null
                                   (ga4_events.transaction_id e))) ga4)))
  = List.length
      (filter (fun e => Sql.holds
                          (Sql.is_not_null (ga4_events.transaction_id e)))
              ga4).
Proof.
  rewrite non_null_length; [apply length_map|].
  apply Forall_forall. intros x Hx.
  apply in_map_iff in Hx as (e & <- & He). apply filter_In in He as [_ He].
  now destruct (ga4_events.transaction_id e).
Qed.

(** X8. The duplicate check of the quality checks never reports a negative
    number, and it reports zero exactly when no transaction id occurs twice
    among the events that enter the join. *)
Theorem ga4_dupes_zero_iff_unique_keys (ga4 : list ga4_events.row) :
  0 <= ga4_dupes ga4
  /\ (ga4_dupes ga4 = 0 <->
      forall k, (left_with_key k (ga4_bookings.cte ga4) <= 1)%nat).
Proof.
  unfold ga4_dupes. cbn zeta. rewrite <- non_null_keys_length.
  set (keys := non_null _).
  pose proof (distinct_strings_length keys) as Hle.
  split; [lia|].
  transitivity (NoDup keys).
  - rewrite <- distinct_strings_all. lia.
  - rewrite (NoDup_count_occ string_dec). subst keys.
    split; intros H k; [rewrite keys_with_key | rewrite <- keys_with_key];
      apply H.
Qed.

(** ** The number of rows *)

Lemma status_partition (t : list booking_reconciliation.row) :
  List.length t
  = (count_status matched t + count_status ga4_only t + count_status sf_only t
     + Sql.count_where
         (fun r => Sql.holds
                     (Sql.is_null (booking_reconciliation.match_status r))) t)%nat.
Proof.
  unfold count_status, Sql.count_where, has_status.
  induction t as [|r t IH]; [reflexivity|]. cbn [filter List.length].
  rewrite IH.
  destruct (booking_reconciliation.match_status r) as [[]|]; cbn; lia.
Qed.

Lemma null_status_join (L : list ga4_bookings.row)
    (R : list sf_opportunities.row) :
  (forall g, In g L -> ga4_bookings.transaction_id g <> None) ->
  Sql.count_where
    (fun r => Sql.holds (Sql.is_null (booking_reconciliation.match_status r)))
    (map booking_reconciliation.select
         (Sql.full_outer_join booking_reconciliation.on L R))
  = Sql.count_where
      (fun s => Sql.unmatched booking_reconciliation.on L s
                && Sql.holds
                     (Sql.is_null (sf_opportunities.transaction_id s))) R.
Proof.
  intros HL. unfold Sql.full_outer_join.
  rewrite count_where_map, count_where_app, count_where_flat_map.
  rewrite list_sum_zero.
  2:{ intros n Hn. apply in_map_iff in Hn as (g & <- & Hg).
      apply left_rows_have_status. auto. }
  rewrite Nat.add_0_l, count_where_map, count_where_filter.
  apply count_where_ext_in. intros s _. f_equal. cbn.
  now destruct (sf_opportunities.transaction_id s).
Qed.

Lemma count_where_ext_in_le {A} (p q : A -> bool) (l : list A) :
  (forall a, In a l -> p a = true -> q a = true) ->
  (Sql.count_where p l <= Sql.count_where q l)%nat.
Proof.
  unfold Sql.count_where. induction l as [|a l IH]; intros H; [reflexivity|].
  cbn. assert (Hl : (List.length (filter p l) <= List.length (filter q l))%nat)
    by (apply IH; intros; apply H; auto; now right).
  destruct (p a) eqn:E.
  - rewrite (H a (or_introl eq_refl) E). cbn. lia.
  - destruct (q a); cbn; lia.
Qed.

Lemma list_sum_map_le {A} (f h : A -> nat) (l : list A) :
  (forall a, In a l -> f a <= h a)%nat ->
  (list_sum (map f l) <= list_sum (map h l))%nat.
Proof.
  induction l as [|a l IH]; intros H; [reflexivity|].
  cbn [map]. change (list_sum (?x :: ?r)) with (x + list_sum r)%nat.
  pose proof (H a (or_introl eq_refl)).
  assert (list_sum (map f l) <= list_sum (map h l))%nat
    by (apply IH; intros; apply H; now right).
  lia.
Qed.

Lemma list_sum_map_const {A} (l : list A) :
  list_sum (map (fun _ => 1%nat) l) = List.length l.
Proof. apply list_sum_ones. reflexivity. Qed.

Lemma join_length {A B} (on : A -> B -> bool) (L : list A) (R : list B) :
  List.length (Sql.full_outer_join on L R)
  = (list_sum (map (fun a => Nat.max 1 (Sql.count_where (on a) R)) L)
     + list_sum
         (map (fun b => if Nat.eqb (Sql.count_where (fun a => on a b) L) 0
                        then 1 else 0) R))%nat.
Proof.
  unfold Sql.full_outer_join. rewrite length_app, length_map. f_equal.
  - rewrite <- (count_where_all (fun _ => true)) by reflexivity.
    rewrite count_where_flat_map. f_equal. apply map_ext. intros a.
    rewrite count_where_all by reflexivity. apply left_outer_rows_length.
  - change (List.length (filter ?p R)) with (Sql.count_where p R).
    rewrite count_where_indicator. f_equal. apply map_ext. intros b.
    unfold Sql.unmatched. now rewrite existsb_count_where, negb_involutive.
Qed.

(** X9. The row count that the reconciliation task returns is the number
    of matched, GA4-only and Salesforce-only rows plus the rows without
    status.  It is never below the number of records of either join input,
    and when no key occurs twice on either side it is the two input sizes
    together less the matched rows. *)
Theorem total_records_accounting (ga4 : list ga4_events.row)
    (sf : list salesforce_opportunities.row) :
  let t := booking_reconciliation.table ga4 sf in
  let L := ga4_bookings.cte ga4 in
  let R := sf_opportunities.cte sf in
  total_records ga4 sf
  = (count_status matched t + count_status ga4_only t + count_status sf_only t
     + Sql.count_where
         (fun r => Sql.holds
                     (Sql.is_null (booking_reconciliation.match_status r))) t)%nat
  /\ (List.length L <= total_records ga4 sf)%nat
  /\ (List.length R <= total_records ga4 sf)%nat
  /\ ((forall k, left_with_key k L <= 1)%nat ->
      (forall k, right_with_key k R <= 1)%nat ->
      (total_records ga4 sf + count_status matched t
       = List.length L + List.length R)%nat).
Proof.
  cbn zeta. unfold total_records.
  rewrite (count_where_all (fun _ => true)) by reflexivity.
  split; [apply status_partition|].
  pose proof (join_length booking_reconciliation.on (ga4_bookings.cte ga4)
                (sf_opportunities.cte sf)) as Hlen.
  rewrite <- (length_map booking_reconciliation.select) in Hlen.
  change (List.length (map booking_reconciliation.select _))
    with (List.length (booking_reconciliation.table ga4 sf)) in Hlen.
  set (L := ga4_bookings.cte ga4) in *. set (R := sf_opportunities.cte sf) in *.
  repeat split.
  - rewrite Hlen, <- (list_sum_map_const L).
    etransitivity; [|apply Nat.le_add_r].
    apply list_sum_map_le. intros; lia.
  - rewrite Hlen, <- (list_sum_map_const R).
    etransitivity.
    2:{ apply Nat.add_le_mono_r.
        apply (list_sum_map_le
                 (fun a => Sql.count_where (booking_reconciliation.on a) R)).
        intros; lia. }
    rewrite (count_pairs_swap booking_reconciliation.on L R).
    rewrite list_sum_map_plus. apply list_sum_map_le. intros s _.
    destruct (Sql.count_where (fun a => booking_reconciliation.on a s) L);
      cbn; lia.
  - intros HL HR. rewrite Hlen.
    assert (Hkeys : forall g, In g L -> ga4_bookings.transaction_id g <> None)
      by (intros g Hg; now apply (ga4_null_key_dropped ga4)).
    unfold booking_reconciliation.table, booking_reconciliation.join.
    fold L R. rewrite (count_status_join matched L R Hkeys).
    cbn [status_of_left_rows].
    rewrite (count_where_none (fun s => _ && has_status matched _))
      by (intros s _; rewrite right_row_status;
          destruct (sf_opportunities.transaction_id s); apply andb_false_r).
    rewrite Nat.add_0_r.
    rewrite (map_ext_in
               (fun a => Nat.max 1 (Sql.count_where (booking_reconciliation.on a) R))
               (fun _ => 1%nat)).
    2:{ intros g _. pose proof (partners_at_most_one R g HR). lia. }
    rewrite list_sum_map_const.
    rewrite (count_pairs_swap booking_reconciliation.on L R).
    rewrite <- Nat.add_assoc, list_sum_map_plus. f_equal.
    apply list_sum_ones. intros s _.
    pose proof (sources_at_most_one L s HL).
    destruct (Sql.count_where (fun g => booking_reconciliation.on g s) L)
      as [|[|c]]; cbn; lia.
Qed.

Lemma total_records_accounting_witness :
  (total_records [Sample.booking_A; Sample.undated_B] [Sample.confirmed_A]
   + count_status matched
       (booking_reconciliation.table
          [Sample.booking_A; Sample.undated_B] [Sample.confirmed_A])
   = 2 + 1)%nat.
Proof.
  apply (proj2 (proj2 (proj2
           (total_records_accounting
              [Sample.booking_A; Sample.undated_B] [Sample.confirmed_A])))).
  - intros k. unfold left_with_key, Sql.count_where, has_key.
    cbn -[String.eqb].
    destruct (String.eqb "BK100001" k) eqn:E1;
      destruct (String.eqb "BK100002" k) eqn:E2;
      cbn -[String.eqb]; try lia.
    apply String.eqb_eq in E1, E2. congruence.
  - intros k. unfold right_with_key, Sql.count_where.
    etransitivity; [apply filter_length_le | cbn; lia].
Defined.

(** ** Grouping and ordering *)

Lemma count_where_split {A} (p q : A -> bool) (l : list A) :
  Sql.count_where p l
  = (Sql.count_where (fun a => q a && p a) l
     + Sql.count_where (fun a => negb (q a) && p a) l)%nat.
Proof.
  unfold Sql.count_where. induction l as [|a l IH]; [reflexivity|].
  cbn. destruct (q a), (p a); cbn; lia.
Qed.

Section GroupByFacts.
Context {R K : Type} (eqb : K -> K -> bool) (key : R -> K).
Hypothesis eqb_eq : forall a b, eqb a b = true <-> a = b.

Lemma groups_in (t : list R) (k : K) :
  In k (groups eqb key t) <-> exists r, In r t /\ key r = k.
Proof.
  induction t as [|x t IH]; cbn [groups].
  - split; [contradiction | intros (r & [] & _)].
  - destruct (existsb (fun r' => eqb (key x) (key r')) t) eqn:E.
    + rewrite IH. split.
      * intros (r & Hr & Hk). exists r. split; [now right | assumption].
      * intros (r & [<-|Hr] & Hk); [|now exists r].
        apply existsb_exists in E as (y & Hy & Heq).
        apply eqb_eq in Heq. exists y. split; [assumption | congruence].
    + cbn [In]. rewrite IH. split.
      * intros [<-|(r & Hr & Hk)]; [exists x; split; [now left | reflexivity]|].
        exists r. split; [now right | assumption].
      * intros (r & [<-|Hr] & Hk); [now left|]. right. now exists r.
Qed.

Lemma groups_nodup (t : list R) : NoDup (groups eqb key t).
Proof.
  induction t as [|x t IH]; cbn [groups]; [constructor|].
  destruct (existsb (fun r' => eqb (key x) (key r')) t) eqn:E; [assumption|].
  constructor; [|assumption]. rewrite groups_in. intros (r & Hr & Hk).
  assert (existsb (fun r' => eqb (key x) (key r')) t = true); [|congruence].
  apply existsb_exists. exists r. split; [assumption|]. now apply eqb_eq.
Qed.

Lemma group_count_pos (t : list R) (k : K) :
  In k (groups eqb key t) -> 0 < group_count eqb key t k.
Proof.
  rewrite groups_in. intros (r & Hr & Hk). unfold group_count, Sql.count_where.
  assert (Hin : In r (filter (fun r => eqb (key r) k) t)).
  { apply filter_In. split; [assumption|]. now apply eqb_eq. }
  destruct (filter (fun r => eqb (key r) k) t); [contradiction|]. cbn. lia.
Qed.

Lemma group_counts_of_keys (t : list R) (ks : list K) :
  NoDup ks ->
  Zsum (map (group_count eqb key t) ks)
  = Z.of_nat (Sql.count_where (fun r => existsb (eqb (key r)) ks) t).
Proof.
  induction 1 as [|k ks Hk Hnd IH].
  - cbn. rewrite count_where_none; [reflexivity | reflexivity].
  - cbn [map Zsum fold_right]. fold (Zsum (map (group_count eqb key t) ks)).
    rewrite IH. unfold group_count.
    rewrite (count_where_split (fun r => existsb (eqb (key r)) (k :: ks))
                               (fun r => eqb (key r) k) t).
    rewrite Nat2Z.inj_add. f_equal; f_equal; apply count_where_ext_in;
      intros r _; cbn [existsb]; destruct (eqb (key r) k) eqn:E; cbn; auto.
    apply eqb_eq in E. subst k. apply not_true_is_false. intros Hex.
    apply existsb_exists in Hex as (k' & Hin & Heq). apply eqb_eq in Heq.
    now subst k'.
Qed.

Lemma group_counts_total (t : list R) :
  Zsum (map (group_count eqb key t) (groups eqb key t))
  = Z.of_nat (List.length t).
Proof.
  rewrite group_counts_of_keys by apply groups_nodup. f_equal.
  apply count_where_all. intros r Hr. apply existsb_exists.
  exists (key r). split; [|now apply eqb_eq].
  apply groups_in. now exists r.
Qed.

End GroupByFacts.

Section OrderByCountFacts.
Context {T : Type} (count : T -> Z).

Lemma insert_by_count_perm (r : T) (l : list T) :
  Permutation (r :: l) (insert_by_count count r l).
Proof.
  induction l as [|x l IH]; [reflexivity|]. cbn [insert_by_count].
  destruct (count x <=? count r); [reflexivity|].
  rewrite perm_swap. now constructor.
Qed.

Lemma order_by_count_perm (l : list T) :
  Permutation l (order_by_count_desc count l).
Proof.
  induction l as [|x l IH]; [reflexivity|].
  cbn. rewrite <- insert_by_count_perm. now constructor.
Qed.

Lemma insert_by_count_sorted (r : T) (l : list T) :
  StronglySorted (not_fewer count) l ->
  StronglySorted (not_fewer count) (insert_by_count count r l).
Proof.
  induction 1 as [|x l Hs IH Hx]; [repeat constructor|].
  cbn [insert_by_count]. destruct (count x <=? count r) eqn:E.
  - apply Z.leb_le in E. constructor; [now constructor|].
    constructor; [exact E|]. eapply Forall_impl; [|exact Hx].
    unfold not_fewer. intros; lia.
  - apply Z.leb_gt in E. constructor; [assumption|].
    rewrite Forall_forall. intros y Hy.
    apply (Permutation_in _ (Permutation_sym (insert_by_count_perm r l)))
      in Hy.
    destruct Hy as [<-|Hy]; [unfold not_fewer; lia|].
    rewrite Forall_forall in Hx. auto.
Qed.

Lemma order_by_count_sorted (l : list T) :
  StronglySorted (not_fewer count) (order_by_count_desc count l).
Proof.
  induction l as [|x l IH]; [constructor|]. cbn.
  now apply insert_by_count_sorted.
Qed.

End OrderByCountFacts.

Lemma Zsum_perm (l l' : list Z) : Permutation l l' -> Zsum l = Zsum l'.
Proof.
  induction 1; cbn in *; try lia. unfold Zsum in *. cbn. lia.
Qed.

Lemma option_eqb_eq {A} (eqb : A -> A -> bool) :
  (forall a b, eqb a b = true <-> a = b) ->
  forall a b, option_eqb eqb a b = true <-> a = b.
Proof.
  intros H [x|] [y|]; cbn; try (split; congruence).
  rewrite H. split; congruence.
Qed.


Lemma GclidStatus_eqb_eq (a b : GclidStatus) :
  GclidStatus_eqb a b = true <-> a = b.
Proof. destruct a, b; cbn; split; congruence. Qed.

Lemma LikelyReason_eqb_eq (a b : LikelyReason) :
  LikelyReason_eqb a b = true <-> a = b.
Proof. destruct a, b; cbn; split; congruence. Qed.

(** ** The match summary *)





(** ** Rounding *)





(** ** Percentages of the match summary *)








(** ** Grouped counts in general *)

Section GroupedCounts.
Context {R K T : Type} (eqb : K -> K -> bool) (key : R -> K).
Context (mk : K -> Z -> T) (key_of : T -> K) (count_of : T -> Z).
Hypothesis eqb_eq : forall a b, eqb a b = true <-> a = b.
Hypothesis key_of_mk : forall k c, key_of (mk k c) = k.
Hypothesis count_of_mk : forall k c, count_of (mk k c) = c.

Lemma grouped_counts (rows : list R) :
  let lines :=
    order_by_count_desc count_of
      (map (fun k => mk k (group_count eqb key rows k))
           (groups eqb key rows)) in
  Zsum (map count_of lines) = Z.of_nat (List.length rows)
  /\ NoDup (map key_of lines)
  /\ (forall k, In k (map key_of lines) <-> In k (map key rows))
  /\ (forall r, In r lines ->
        count_of r = group_count eqb key rows (key_of r) /\ 0 < count_of r)
  /\ StronglySorted (not_fewer count_of) lines.
Proof.
  cbn zeta. set (unsorted := map _ (groups eqb key rows)).
  pose proof (order_by_count_perm count_of unsorted) as Hperm.
  assert (Hkeys : map key_of unsorted = groups eqb key rows).
  { unfold unsorted. rewrite map_map.
    rewrite (map_ext _ (fun k => k)) by (intros; apply key_of_mk).
    apply map_id. }
  assert (Hcounts : map count_of unsorted
                    = map (group_count eqb key rows) (groups eqb key rows)).
  { unfold unsorted. rewrite map_map. apply map_ext.
    intros; apply count_of_mk. }
  split; [|split; [|split; [|split]]].
  - rewrite <- (Zsum_perm _ _ (Permutation_map _ Hperm)), Hcounts.
    now apply group_counts_total.
  - apply (Permutation_NoDup (Permutation_map _ Hperm)). rewrite Hkeys.
    now apply groups_nodup.
  - intros k.
    rewrite <- (Permutation_in' eq_refl (Permutation_map _ Hperm)), Hkeys.
    rewrite (groups_in eqb key eqb_eq), in_map_iff.
    split; intros (x & H1 & H2); exists x; auto.
  - intros r Hr. apply (Permutation_in _ (Permutation_sym Hperm)) in Hr.
    unfold unsorted in Hr. apply in_map_iff in Hr as (k & <- & Hk).
    rewrite key_of_mk, count_of_mk. split; [reflexivity|].
    now apply group_count_pos.
  - apply order_by_count_sorted.
Qed.

End GroupedCounts.

(** ** The click-id summary *)

(** X12. The click-id summary counts matched rows only: it has one line
    per click status that occurs among the matched rows, with the number
    of matched rows of that status, the counts add up to the number of
    matched rows, and the lines come in order of falling count.  The click
    status of a row that is not matched is never counted. *)
Theorem gclid_summary_counts_matched_rows (ieee_floating_point_ops : bool)
    (t : list booking_reconciliation.row) :
  let summary := gclid_summary.query ieee_floating_point_ops t in
  Zsum (map gclid_summary.record_count summary)
  = Z.of_nat (count_status matched t)
  /\ NoDup (map gclid_summary.gclid_status summary)
  /\ (forall st, In st (map gclid_summary.gclid_status summary) <->
        exists x, In x t
                  /\ booking_reconciliation.match_status x = Some matched
                  /\ booking_reconciliation.gclid_status x = st)
  /\ (forall r, In r summary ->
        gclid_summary.record_count r
        = Z.of_nat
            (Sql.count_where
               (fun x => has_status matched x
                         && option_eqb GclidStatus_eqb
                              (booking_reconciliation.gclid_status x)
                              (gclid_summary.gclid_status r)) t))
  /\ StronglySorted (not_fewer gclid_summary.record_count) summary.
Proof.
  cbn zeta. unfold gclid_summary.query. cbv zeta.
  change (fun r => Sql.holds (is_matched r)) with (has_status matched).
  set (rows := filter (has_status matched) t).
  set (eqb := option_eqb GclidStatus_eqb).
  set (key := booking_reconciliation.gclid_status).
  set (total := fold_right Z.add 0 _).
  pose proof (grouped_counts eqb key
                (fun k c => gclid_summary.mk k c
                              (share_pct ieee_floating_point_ops c total))
                gclid_summary.gclid_status gclid_summary.record_count
                (option_eqb_eq _ GclidStatus_eqb_eq)
                (fun _ _ => eq_refl) (fun _ _ => eq_refl) rows)
    as (Hsum & Hnd & Hin & Hrow & Hsorted).
  cbn zeta in Hsum, Hnd, Hin, Hrow, Hsorted.
  split; [|split; [|split; [|split]]].
  - rewrite Hsum. reflexivity.
  - exact Hnd.
  - intros st. rewrite Hin, in_map_iff. unfold rows. split.
    + intros (x & Hk & Hx). apply filter_In in Hx as [Hx Hm].
      exists x. repeat split; auto. unfold has_status in Hm.
      destruct (booking_reconciliation.match_status x) as [[]|];
        cbn in Hm; congruence.
    + intros (x & Hx & Hm & Hk). exists x. split; [assumption|].
      apply filter_In. split; [assumption|]. unfold has_status.
      now rewrite Hm.
  - intros r Hr. destruct (Hrow r Hr) as [-> _]. unfold group_count, rows.
    now rewrite count_where_filter.
  - exact Hsorted.
Qed.

(** ** The GA4-only and Salesforce-only analyses *)

(** X13. The likely reason of a row is ['Test Booking'] exactly when its
    test flag is set, whatever its value; it is ['Low Value'] exactly when
    the flag is not set and the GA4 value is below 100; it is ['Unknown']
    in every other case, which includes a row without GA4 value.  A reason
    is always given. *)
Theorem likely_reason_precedence (r : booking_reconciliation.row) :
  let reason := ga4_only_analysis.likely_reason_case r in
  let flag := booking_reconciliation.is_test_booking r in
  let value := booking_reconciliation.ga4_booking_value r in
  (reason = Some Test_Booking <-> flag = Some true)
  /\ (reason = Some Low_Value <->
        flag <> Some true /\ exists v, value = Some v /\ (v < 100)%Q)
  /\ (reason = Some Unknown <->
        flag <> Some true
        /\ (value = None \/ exists v, value = Some v /\ (100 <= v)%Q))
  /\ reason <> None.
Proof.
  cbn zeta. unfold ga4_only_analysis.likely_reason_case.
  destruct (booking_reconciliation.is_test_booking r) as [[]|];
    cbn [Sql.case_when Sql.holds];
    [| destruct (booking_reconciliation.ga4_booking_value r) as [v|];
       cbn [sql_lt Sql.holds Sql.case_when];
       [destruct (Qle_bool 100 v) eqn:E; cbn [negb];
        [apply Qle_bool_iff in E
        |assert (E' : ~ (100 <= v)%Q)
           by (rewrite <- Qle_bool_iff; congruence)] |] ..].
  all: repeat split; intros; try discriminate; try congruence.
  all: repeat match goal with
       | H : _ /\ _ |- _ => destruct H
       | H : _ \/ _ |- _ => destruct H
       | H : exists _, _ |- _ => destruct H
       | H : Some _ = Some _ |- _ => injection H as <-
       end; try discriminate; try congruence; try lra.
  all: first [ exists v; split; [reflexivity | lra]
             | right; exists v; split; [reflexivity | assumption]
             | left; reflexivity ].
Qed.

Lemma likely_reason_given (r : booking_reconciliation.row) :
  ga4_only_analysis.likely_reason_case r <> None.
Proof.
  unfold ga4_only_analysis.likely_reason_case.
  destruct (booking_reconciliation.is_test_booking r) as [[]|]; cbn;
    try discriminate;
    destruct (sql_lt (booking_reconciliation.ga4_booking_value r) (Some 100%Q))
      as [[]|]; cbn; discriminate.
Qed.

Lemma reason_test_iff_flag (r : booking_reconciliation.row) :
  ga4_only_analysis.likely_reason_case r = Some Test_Booking <->
  booking_reconciliation.is_test_booking r = Some true.
Proof.
  unfold ga4_only_analysis.likely_reason_case.
  destruct (booking_reconciliation.is_test_booking r) as [[]|]; cbn;
    [tauto | |];
    destruct (sql_lt (booking_reconciliation.ga4_booking_value r) (Some 100%Q))
      as [[]|]; cbn; split; discriminate.
Qed.

Lemma at_most_three_reasons (l : list (option LikelyReason)) :
  NoDup l -> ~ In None l -> (List.length l <= 3)%nat.
Proof.
  intros Hnd Hnone.
  apply (NoDup_incl_length
           (l' := [Some Test_Booking; Some Low_Value; Some Unknown]) Hnd).
  intros [[]|] Hin; cbn; auto; contradiction.
Qed.

(** X14. The GA4-only analysis counts the ['ga4_only'] rows by likely
    reason: at most three lines, one per reason that occurs among these
    rows, each with the number of ['ga4_only'] rows of that reason; the
    counts add up to the number of ['ga4_only'] rows and the lines come in
    order of falling count. *)
Theorem ga4_only_analysis_counts (t : list booking_reconciliation.row) :
  let analysis := ga4_only_analysis.query t in
  Zsum (map ga4_only_analysis.count analysis)
  = Z.of_nat (count_status ga4_only t)
  /\ NoDup (map ga4_only_analysis.likely_reason analysis)
  /\ (List.length analysis <= 3)%nat
  /\ (forall r, In r analysis ->
        (exists x, In x t /\ has_status ga4_only x = true
                   /\ ga4_only_analysis.likely_reason_case x
                      = ga4_only_analysis.likely_reason r)
        /\ ga4_only_analysis.count r
           = Z.of_nat
               (Sql.count_where
                  (fun x => has_status ga4_only x
                            && option_eqb LikelyReason_eqb
                                 (ga4_only_analysis.likely_reason_case x)
                                 (ga4_only_analysis.likely_reason r)) t))
  /\ StronglySorted (not_fewer ga4_only_analysis.count) analysis.
Proof.
  cbn zeta. unfold ga4_only_analysis.query. cbv zeta.
  change ga4_only_analysis.where_ with (has_status ga4_only).
  set (rows := filter (has_status ga4_only) t).
  pose proof (grouped_counts (option_eqb LikelyReason_eqb)
                ga4_only_analysis.likely_reason_case
                ga4_only_analysis.mk
                ga4_only_analysis.likely_reason ga4_only_analysis.count
                (option_eqb_eq _ LikelyReason_eqb_eq)
                (fun _ _ => eq_refl) (fun _ _ => eq_refl) rows)
    as (Hsum & Hnd & Hin & Hrow & Hsorted).
  cbn zeta in Hsum, Hnd, Hin, Hrow, Hsorted.
  split; [|split; [|split; [|split]]].
  - rewrite Hsum. reflexivity.
  - exact Hnd.
  - rewrite <- (length_map ga4_only_analysis.likely_reason).
    apply at_most_three_reasons; [exact Hnd|].
    rewrite Hin, in_map_iff. intros (x & Hx & _).
    now apply likely_reason_given in Hx.
  - intros r Hr. split.
    + assert (Hk : In (ga4_only_analysis.likely_reason r)
                      (map ga4_only_analysis.likely_reason_case rows))
        by (apply Hin; now apply in_map).
      apply in_map_iff in Hk as (x & Hk & Hx).
      apply filter_In in Hx as [Hx Hst]. now exists x.
    + destruct (Hrow r Hr) as [-> _]. unfold group_count, rows.
      now rewrite count_where_filter.
  - exact Hsorted.
Qed.

(** X15. The Salesforce-only analysis counts the ['sf_only'] rows by
    booking source: one line per source that occurs among these rows (rows
    without source form a line of their own), each with the number of
    ['sf_only'] rows of that source; the counts add up to the number of
    ['sf_only'] rows and the lines come in order of falling count. *)
Theorem sf_only_analysis_counts (t : list booking_reconciliation.row) :
  let analysis := sf_only_analysis.query t in
  Zsum (map sf_only_analysis.count analysis)
  = Z.of_nat (count_status sf_only t)
  /\ NoDup (map sf_only_analysis.booking_source analysis)
  /\ (forall src, In src (map sf_only_analysis.booking_source analysis) <->
        exists x, In x t /\ has_status sf_only x = true
                  /\ booking_reconciliation.booking_source x = src)
  /\ (forall r, In r analysis ->
        sf_only_analysis.count r
        = Z.of_nat
            (Sql.count_where
               (fun x => has_status sf_only x
                         && option_eqb String.eqb
                              (booking_reconciliation.booking_source x)
                              (sf_only_analysis.booking_source r)) t))
  /\ StronglySorted (not_fewer sf_only_analysis.count) analysis.
Proof.
  cbn zeta. unfold sf_only_analysis.query. cbv zeta.
  change sf_only_analysis.where_ with (has_status sf_only).
  set (rows := filter (has_status sf_only) t).
  pose proof (grouped_counts (option_eqb String.eqb)
                booking_reconciliation.booking_source
                sf_only_analysis.mk
                sf_only_analysis.booking_source sf_only_analysis.count
                (option_eqb_eq _ String.eqb_eq)
                (fun _ _ => eq_refl) (fun _ _ => eq_refl) rows)
    as (Hsum & Hnd & Hin & Hrow & Hsorted).
  cbn zeta in Hsum, Hnd, Hin, Hrow, Hsorted.
  split; [|split; [|split; [|split]]].
  - rewrite Hsum. reflexivity.
  - exact Hnd.
  - intros src. rewrite Hin, in_map_iff. unfold rows. split.
    + intros (x & Hk & Hx). apply filter_In in Hx as [Hx Hm]. now exists x.
    + intros (x & Hx & Hm & Hk). exists x. split; [assumption|].
      now apply filter_In.
  - intros r Hr. destruct (Hrow r Hr) as [-> _]. unfold group_count, rows.
    now rewrite count_where_filter.
  - exact Hsorted.
Qed.

Lemma ga4_only_line_count (t : list booking_reconciliation.row)
    (r : ga4_only_analysis.row) :
  In r (ga4_only_analysis.query t) ->
  ga4_only_analysis.count r
  = Z.of_nat
      (Sql.count_where
         (fun x => has_status ga4_only x
                   && option_eqb LikelyReason_eqb
                        (ga4_only_analysis.likely_reason_case x)
                        (ga4_only_analysis.likely_reason r)) t).
Proof.
  unfold ga4_only_analysis.query. cbv zeta.
  change ga4_only_analysis.where_ with (has_status ga4_only).
  set (rows := filter (has_status ga4_only) t).
  pose proof (grouped_counts (option_eqb LikelyReason_eqb)
                ga4_only_analysis.likely_reason_case
                ga4_only_analysis.mk
                ga4_only_analysis.likely_reason ga4_only_analysis.count
                (option_eqb_eq _ LikelyReason_eqb_eq)
                (fun _ _ => eq_refl) (fun _ _ => eq_refl) rows)
    as (_ & _ & _ & Hrow & _).
  cbn zeta in Hrow. intros Hr. destruct (Hrow r Hr) as [-> _].
  unfold group_count, rows. now rewrite count_where_filter.
Qed.

Lemma is_test_booking_flag (e : ga4_events.row) :
  ga4_bookings.is_test_booking (ga4_bookings.select e)
  = Sql.holds (Sql.eq3 String.eqb (ga4_events.user_pseudo_id e)
                       (Some "test_user_internal"%string)).
Proof.
  cbn. destruct (ga4_events.user_pseudo_id e) as [u|]; cbn; [|reflexivity].
  now destruct (String.eqb u "test_user_internal").
Qed.

Lemma test_rows_of_left_record (R : list sf_opportunities.row)
    (g : ga4_bookings.row) :
  ga4_bookings.transaction_id g <> None ->
  (Sql.count_where
     (fun j => has_status ga4_only (booking_reconciliation.select j)
               && option_eqb LikelyReason_eqb
                    (ga4_only_analysis.likely_reason_case
                       (booking_reconciliation.select j))
                    (Some Test_Booking))
     (Sql.left_outer_rows booking_reconciliation.on R g)
   <= if ga4_bookings.is_test_booking g then 1 else 0)%nat.
Proof.
  intros Hg. destruct (ga4_bookings.is_test_booking g) eqn:Hflag.
  - etransitivity.
    + apply (count_where_ext_in_le _
               (fun j => has_status ga4_only (booking_reconciliation.select j))).
      intros j _ H. now apply andb_true_iff in H as [H _].
    + rewrite (left_rows_status R g ga4_only Hg). cbn.
      destruct (Nat.eqb _ 0); lia.
  - rewrite count_where_none; [lia|]. intros [og os] Hin.
    apply in_left_outer_rows in Hin as [Hfst _]. cbn in Hfst. subst og.
    apply andb_false_iff. right. apply not_true_is_false. intros H.
    apply (option_eqb_eq _ LikelyReason_eqb_eq) in H.
    apply reason_test_iff_flag in H. cbn in H. congruence.
Qed.

(** X16. The ['Test Booking'] line of the GA4-only analysis never counts
    more rows than the quality check counted test bookings: every row it
    counts is an event of the internal test user that has a transaction id
    and no opportunity. *)
Theorem test_booking_line_within_quality_count (ga4 : list ga4_events.row)
    (sf : list salesforce_opportunities.row) (r : ga4_only_analysis.row) :
  In r (ga4_only_analysis.query (booking_reconciliation.table ga4 sf)) ->
  ga4_only_analysis.likely_reason r = Some Test_Booking ->
  ga4_only_analysis.count r
  <= Z.of_nat
       (data_quality_checks.test_bookings (data_quality_checks.run ga4 sf)).
Proof.
  intros Hr Hreason. rewrite (ga4_only_line_count _ r Hr), Hreason.
  apply Nat2Z.inj_le.
  unfold booking_reconciliation.table, booking_reconciliation.join,
    Sql.full_outer_join.
  rewrite count_where_map, count_where_app, count_where_flat_map.
  rewrite (count_where_none _ (map _ _)).
  2:{ intros j Hj. apply in_map_iff in Hj as (s & <- & _).
      rewrite right_row_status. reflexivity. }
  rewrite Nat.add_0_r.
  etransitivity.
  { apply (list_sum_map_le _
             (fun g => if ga4_bookings.is_test_booking g then 1 else 0)%nat).
    intros g Hg. apply test_rows_of_left_record.
    now apply (ga4_null_key_dropped ga4). }
  rewrite <- count_where_indicator.
  unfold ga4_bookings.cte. rewrite count_where_map, count_where_filter.
  etransitivity; [apply count_where_and_le|].
  unfold data_quality_checks.run. cbn [data_quality_checks.test_bookings].
  rewrite (count_where_ext_in _ _ ga4 (fun e _ => is_test_booking_flag e)).
  reflexivity.
Qed.

Lemma test_booking_line_within_quality_count_witness :
  ga4_only_analysis.count
    (nth 0 (ga4_only_analysis.query
              (booking_reconciliation.table [Sample.test_purchase] []))
         (ga4_only_analysis.mk None 0))
  <= Z.of_nat
       (data_quality_checks.test_bookings
          (data_quality_checks.run [Sample.test_purchase] [])).
Proof.
  apply (test_booking_line_within_quality_count [Sample.test_purchase] []).
  - left. reflexivity.
  - reflexivity.
Defined.

(** ** Bounds of the daily trend *)






(** ** Revenue of reconciled rows *)

Lemma sql_sum_agree (rows : list booking_reconciliation.row) :
  (forall x, In x rows ->
     exists a b, booking_reconciliation.ga4_booking_value x = Some a
                 /\ booking_reconciliation.sf_booking_value x = Some b
                 /\ (a == b)%Q) ->
  forall A,
    sql_sum (map booking_reconciliation.ga4_booking_value rows) = Some A ->
    exists B,
      sql_sum (map booking_reconciliation.sf_booking_value rows) = Some B
      /\ (A == B)%Q.
Proof.
  induction rows as [|x rows IH]; intros H A HA; [discriminate|].
  destruct (H x (or_introl eq_refl)) as (a & b & Ha & Hb & Hab).
  cbn [map sql_sum] in *. rewrite Ha in HA. rewrite Hb.
  destruct (sql_sum (map booking_reconciliation.ga4_booking_value rows))
    as [A'|] eqn:EA.
  - destruct (IH (fun y Hy => H y (or_intror Hy)) A' eq_refl)
      as (B' & -> & HAB).
    injection HA as <-. eexists. split; [reflexivity|].
    now rewrite Hab, HAB.
  - injection HA as <-.
    destruct (sql_sum (map booking_reconciliation.sf_booking_value rows))
      as [B'|] eqn:EB.
    + exfalso. destruct rows as [|y rows]; [discriminate|].
      destruct (H y (or_intror (or_introl eq_refl)))
        as (a' & b' & Ha' & _ & _).
      cbn [map sql_sum] in EA. rewrite Ha' in EA.
      destruct (sql_sum (map booking_reconciliation.ga4_booking_value rows));
        discriminate.
    + now exists b.
Qed.

(** X18. When in every matched row both values are present and equal and
    the GA4 total is not zero, the revenue summary reports a difference of
    zero and a percentage of 0.00. *)
Theorem reconciled_revenue_has_no_difference
    (ieee_floating_point_ops : bool) (t : list booking_reconciliation.row)
    (L : Q) :
  (forall x, In x t ->
     booking_reconciliation.match_status x = Some matched ->
     exists a b, booking_reconciliation.ga4_booking_value x = Some a
                 /\ booking_reconciliation.sf_booking_value x = Some b
                 /\ (a == b)%Q) ->
  let r := revenue_summary.query ieee_floating_point_ops t in
  revenue_summary.total_ga4_revenue r = Some L ->
  ~ (L == 0)%Q ->
  exists d p,
    revenue_summary.revenue_difference r = Some d /\ (d == 0)%Q
    /\ revenue_summary.diff_percentage r = Some (Finite p) /\ (p == 0)%Q.
Proof.
  intros Hagree r HL Hnz. subst r. unfold revenue_summary.query in *.
  cbn [revenue_summary.total_ga4_revenue revenue_summary.revenue_difference
       revenue_summary.diff_percentage] in *.
  destruct (sql_sum_agree (filter revenue_summary.where_ t)) with (A := L)
    as (R & HR & HLR); [|exact HL|].
  { intros x Hx. apply filter_In in Hx as [Hx Hm].
    apply revenue_where_iff in Hm. auto. }
  rewrite HL, HR. cbn [sql_minus sql_div].
  destruct (Qeq_bool L 0) eqn:E; [apply Qeq_bool_iff in E; contradiction|].
  cbn [sql_times sql_round2].
  exists (L - R)%Q, (round2 ((L - R) / L * 100)).
  repeat split.
  - rewrite HLR. ring.
  - rewrite (round2_comp _ 0); [reflexivity|].
    rewrite HLR. field. now rewrite <- HLR.
Qed.

Lemma reconciled_revenue_has_no_difference_witness :
  exists d p,
    revenue_summary.revenue_difference
      (revenue_summary.query true
         (booking_reconciliation.table
            [Sample.undated_B] [Sample.confirmed_B])) = Some d
    /\ (d == 0)%Q
    /\ revenue_summary.diff_percentage
         (revenue_summary.query true
            (booking_reconciliation.table
               [Sample.undated_B] [Sample.confirmed_B])) = Some (Finite p)
    /\ (p == 0)%Q.
Proof.
  apply (reconciled_revenue_has_no_difference true
           (booking_reconciliation.table
              [Sample.undated_B] [Sample.confirmed_B]) 300%Q).
  - intros x [<-|[]] _. exists 300%Q, 300%Q. repeat split.
  - reflexivity.
  - discriminate.
Defined.

(** ** Reading the parameters of an event *)

Lemma lookup_existsb (k : string) (items : list (Py.value * Py.value)) :
  existsb (fun kv => Py.is_str k (fst kv)) items
  = match Py.lookup k items with Some _ => true | None => false end.
Proof.
  unfold Py.lookup. induction items as [|kv items IH]; [reflexivity|].
  cbn. destruct (Py.is_str k (fst kv)); [reflexivity | exact IH].
Qed.

Lemma readable_param_is_stored_helper
    (params_dict : list (Py.value * Py.value))
    (p : Py.value) (key : string) (items : list (Py.value * Py.value)) :
  readable_param p key items ->
  extract_ga4_events.add_param params_dict p
  = Py.Ok match stored_value items with
          | Some x => (Py.Str key, x) :: params_dict
          | None => params_dict
          end.
Proof.
  intros [Hkey Hval]. unfold extract_ga4_events.add_param, stored_value.
  rewrite Hkey, Hval. cbn [Py.bind Py.contains Py.getitem].
  rewrite !lookup_existsb.
  destruct (Py.lookup "string_value" items) as [s|]; cbn; [reflexivity|].
  destruct (Py.lookup "double_value" items) as [x|]; reflexivity.
Qed.

(** X19. A parameter whose ['key'] is a string and whose ['value'] is a
    dict is stored under its key with the ['string_value'] of that dict if
    it has one, else with its ['double_value'] if it has one; a value of
    any other kind (an ['int_value'], say) is passed over without error
    and leaves the parameters read so far as they are. *)
Theorem readable_param_is_stored (params_dict : list (Py.value * Py.value))
    (p : Py.value) (key : string) (items : list (Py.value * Py.value)) :
  readable_param p key items ->
  extract_ga4_events.add_param params_dict p
  = Py.Ok match stored_value items with
          | Some x => (Py.Str key, x) :: params_dict
          | None => params_dict
          end.
Proof. apply readable_param_is_stored_helper. Qed.

Lemma readable_param_is_stored_witness :
  extract_ga4_events.add_param []
    (Sample.param "nights" "int_value" (Py.Int 3)) = Py.Ok [].
Proof.
  apply (readable_param_is_stored []
           (Sample.param "nights" "int_value" (Py.Int 3)) "nights"
           [(Py.Str "int_value", Py.Int 3)]).
  split; reflexivity.
Defined.

Lemma add_param_shape (d d' : list (Py.value * Py.value)) (p : Py.value) :
  extract_ga4_events.add_param d p = Py.Ok d' ->
  d' = d
  \/ exists key x, Py.getitem p "key" = Py.Ok key /\ d' = (key, x) :: d.
Proof.
  unfold extract_ga4_events.add_param, Py.setitem.
  destruct (Py.getitem p "key") as [key|]; cbn; [|discriminate].
  destruct (Py.getitem p "value") as [v|]; cbn; [|discriminate].
  destruct (Py.contains "string_value" v) as [[]|]; cbn; [| |discriminate].
  - destruct (Py.getitem v "string_value") as [x|]; cbn; [|discriminate].
    destruct (Py.hashable key); [|discriminate].
    intros [= <-]. right. now exists key, x.
  - destruct (Py.contains "double_value" v) as [[]|]; cbn; [| |discriminate].
    + destruct (Py.getitem v "double_value") as [x|]; cbn; [|discriminate].
      destruct (Py.hashable key); [|discriminate].
      intros [= <-]. right. now exists key, x.
    + intros [= <-]. now left.
Qed.

Lemma add_params_app (d : list (Py.value * Py.value))
    (ps qs : list Py.value) :
  extract_ga4_events.add_params d (ps ++ qs)
  = Py.bind (extract_ga4_events.add_params d ps)
            (fun d' => extract_ga4_events.add_params d' qs).
Proof.
  revert d. induction ps as [|p ps IH]; intros d; [reflexivity|].
  cbn. destruct (extract_ga4_events.add_param d p); cbn; [apply IH|].
  reflexivity.
Qed.

Lemma get_cons_same (d : list (Py.value * Py.value)) (k : string)
    (x : Py.value) :
  Py.get ((Py.Str k, x) :: d) k = x.
Proof. unfold Py.get, Py.lookup. cbn. now rewrite String.eqb_refl. Qed.

Lemma get_cons_other (d : list (Py.value * Py.value)) (key x : Py.value)
    (k : string) :
  key <> Py.Str k -> Py.get ((key, x) :: d) k = Py.get d k.
Proof.
  intros Hne. unfold Py.get, Py.lookup. cbn.
  destruct key; cbn; try reflexivity.
  destruct (String.eqb_spec k s) as [->|]; [contradiction | reflexivity].
Qed.

(** X20. When the loop over the parameters ends without error, the value
    read for a key that no parameter carries is the one held before the
    loop, so [None] for an event that lacks the parameter; and when the
    last parameter is readable and stores a value, that value is read for
    its key, whatever earlier parameters stored there. *)
Theorem last_parameter_wins_and_absent_is_none
    (ps : list Py.value) (d d' : list (Py.value * Py.value)) (k : string) :
  extract_ga4_events.add_params d ps = Py.Ok d' ->
  ((forall p, In p ps -> Py.getitem p "key" <> Py.Ok (Py.Str k)) ->
   Py.get d' k = Py.get d k)
  /\ (forall p items x d'',
        readable_param p k items -> stored_value items = Some x ->
        extract_ga4_events.add_params d (ps ++ [p]) = Py.Ok d'' ->
        Py.get d'' k = x).
Proof.
  intros Hrun. split.
  - revert d Hrun. induction ps as [|p ps IH]; intros d Hrun Habsent.
    + now injection Hrun as <-.
    + cbn in Hrun.
      destruct (extract_ga4_events.add_param d p) as [d1|] eqn:E;
        cbn in Hrun; [|discriminate].
      rewrite (IH d1 Hrun) by (intros q Hq; apply Habsent; now right).
      apply add_param_shape in E as [->|(key & x & Hkey & ->)];
        [reflexivity|].
      apply get_cons_other. intros ->.
      now apply (Habsent p (or_introl eq_refl)).
  - intros p items x d'' Hread Hstored Hrun'.
    rewrite add_params_app, Hrun in Hrun'. cbn in Hrun'.
    rewrite (readable_param_is_stored_helper d' p k items Hread), Hstored
      in Hrun'.
    cbn in Hrun'. injection Hrun' as <-. apply get_cons_same.
Qed.

Lemma last_parameter_wins_and_absent_is_none_witness :
  Py.get [(Py.Str "transaction_id", Py.Str "BK100001")] "gclid" = Py.get [] "gclid"
  /\ Py.get [(Py.Str "transaction_id", Py.Str "BK100009");
             (Py.Str "transaction_id", Py.Str "BK100001")] "transaction_id"
     = Py.Str "BK100009".
Proof.
  split.
  - apply (proj1 (last_parameter_wins_and_absent_is_none
                    [Sample.param "transaction_id" "string_value"
                                  (Py.Str "BK100001")]
                    [] _ "gclid" eq_refl)).
    intros p [<-|[]]. discriminate.
  - apply (proj2 (last_parameter_wins_and_absent_is_none
                    [Sample.param "transaction_id" "string_value"
                                  (Py.Str "BK100001")]
                    [] _ "transaction_id" eq_refl)
             (Sample.param "transaction_id" "string_value"
                           (Py.Str "BK100009"))
             [(Py.Str "string_value", Py.Str "BK100009")]
             (Py.Str "BK100009")).
    + split; reflexivity.
    + reflexivity.
    + reflexivity.
Defined.

Lemma add_params_readable (ps : list Py.value)
    (d : list (Py.value * Py.value)) :
  Forall (fun p => exists key items, readable_param p key items) ps ->
  exists d', extract_ga4_events.add_params d ps = Py.Ok d'.
Proof.
  intros H. revert d. induction H as [|p ps (key & items & Hp) _ IH];
    intros d; [now exists d|].
  cbn. rewrite (readable_param_is_stored_helper d p key items Hp). cbn.
  apply IH.
Qed.

(** X21. The extraction succeeds on every batch in which each cell
    evaluates to a list of readable parameters (a string ['key'], a dict
    ['value']): it then yields one flattened event per raw event. *)
Theorem readable_batch_is_flattened
    (ga4_df : list extract_ga4_events.raw_row) :
  Forall (fun row =>
            exists ps,
              extract_ga4_events.raw_event_params row = Py.Ok (Py.List_ ps)
              /\ Forall (fun p => exists key items, readable_param p key items)
                        ps) ga4_df ->
  exists flattened_events,
    extract_ga4_events.run ga4_df = Py.Ok flattened_events
    /\ List.length flattened_events = List.length ga4_df.
Proof.
  induction 1 as [|row rest (ps & Hcell & Hps) _ (out & Hrun & Hlen)].
  - now exists [].
  - cbn [extract_ga4_events.run]. unfold extract_ga4_events.flatten.
    rewrite Hcell. cbn [Py.bind Py.iter].
    destruct (add_params_readable ps [] Hps) as (d & ->). cbn [Py.bind].
    rewrite Hrun. cbn [Py.bind]. eexists. split; [reflexivity|].
    cbn. now rewrite Hlen.
Qed.

Lemma readable_batch_is_flattened_witness :
  exists flattened_events,
    extract_ga4_events.run [Sample.raw_purchase] = Py.Ok flattened_events
    /\ List.length flattened_events = 1%nat.
Proof.
  apply (readable_batch_is_flattened [Sample.raw_purchase]).
  constructor; [|constructor].
  eexists. split; [reflexivity|].
  repeat constructor; eexists; eexists; split; reflexivity.
Defined.

(** ** From the generator to the flattened event *)

(** X22. When the cell of a raw event evaluates to the parameter list
    that the generator built for a booking, flattening gives back the
    booking: its transaction id, its value as a float, its source and
    campaign where the booking has them, and its click id where the
    booking has one and the generator sent it; what the booking lacks, or
    the generator did not send, is [None]. *)
Theorem generated_event_flattens_to_its_booking
    (b : generate_sample_data.booking) (gclid_sent : bool)
    (row : extract_ga4_events.raw_row) :
  extract_ga4_events.raw_event_params row
  = Py.Ok (Py.List_ (generate_sample_data.event_params b gclid_sent)) ->
  let sent (x : option string) (s : bool) :=
    match x with
    | Some v => if generate_sample_data.truthy x && s then Py.Str v
                else Py.NoneVal
    | None => Py.NoneVal
    end in
  extract_ga4_events.flatten row
  = Py.Ok
      {| extract_ga4_events.event_date :=
           extract_ga4_events.raw_event_date row;
         extract_ga4_events.event_timestamp :=
           extract_ga4_events.raw_event_timestamp row;
         extract_ga4_events.event_name :=
           extract_ga4_events.raw_event_name row;
         extract_ga4_events.user_pseudo_id :=
           extract_ga4_events.raw_user_pseudo_id row;
         extract_ga4_events.transaction_id :=
           Py.Str (generate_sample_data.transaction_id b);
         extract_ga4_events.booking_value :=
           Py.Float (inject_Z (generate_sample_data.booking_value b));
         extract_ga4_events.gclid :=
           sent (generate_sample_data.gclid b) gclid_sent;
         extract_ga4_events.utm_source :=
           sent (generate_sample_data.utm_source b) true;
         extract_ga4_events.utm_campaign :=
           sent (generate_sample_data.utm_campaign b) true |}.
Proof.
  intros Hcell. cbn zeta. unfold extract_ga4_events.flatten.
  rewrite Hcell. unfold generate_sample_data.event_params,
    generate_sample_data.optional_param.
  destruct (generate_sample_data.gclid b) as [g|];
    destruct (generate_sample_data.utm_source b) as [u|];
    destruct (generate_sample_data.utm_campaign b) as [c|];
    repeat match goal with
           | |- context [generate_sample_data.truthy ?x && ?s] =>
               destruct (generate_sample_data.truthy x && s)
           end;
    reflexivity.
Qed.

Lemma generated_event_flattens_to_its_booking_witness :
  extract_ga4_events.flatten
    (Sample.raw
       (Py.Ok (Py.List_ (generate_sample_data.event_params
                           Sample.google_booking false))))
  = Py.Ok
      {| extract_ga4_events.event_date := Py.Int 20251003;
         extract_ga4_events.event_timestamp := Py.Int 1759485600000000;
         extract_ga4_events.event_name := Py.Str "purchase";
         extract_ga4_events.user_pseudo_id := Py.Str "user_1000";
         extract_ga4_events.transaction_id := Py.Str "BK100001";
         extract_ga4_events.booking_value := Py.Float (inject_Z (250 * 4));
         extract_ga4_events.gclid := Py.NoneVal;
         extract_ga4_events.utm_source := Py.Str "google";
         extract_ga4_events.utm_campaign := Py.NoneVal |}.
Proof.
  apply (generated_event_flattens_to_its_booking Sample.google_booking false
           (Sample.raw
              (Py.Ok (Py.List_ (generate_sample_data.event_params
                                  Sample.google_booking false))))).
  reflexivity.
Defined.

(** ** The generator *)

(** X23. [random_date] never returns a time before [start], and never one
    more than a day after [end]; it does return the time one day after
    [end] when the two draws are the largest allowed and [start] and [end]
    are a whole number of days apart, so a generated time can lie after
    [end]. *)
Theorem random_date_range (start end_ random_days random_seconds : Z) :
  start <= end_ ->
  0 <= random_days <= generate_sample_data.delta_days start end_ ->
  0 <= random_seconds <= 86400 ->
  let r :=
    generate_sample_data.random_date start end_ random_days random_seconds in
  start <= r <= end_ + MICROS_PER_DAY
  /\ (random_days = generate_sample_data.delta_days start end_ ->
      random_seconds = 86400 ->
      (end_ - start) mod MICROS_PER_DAY = 0 ->
      r = end_ + MICROS_PER_DAY).
Proof.
  intros Horder Hdays Hsecs. cbn zeta.
  unfold generate_sample_data.random_date, generate_sample_data.delta_days,
    MICROS_PER_DAY, MICROS_PER_SEC in *.
  pose proof (Z.div_mod (end_ - start) 86400000000 ltac:(lia)) as Hdm.
  pose proof (Z.mod_pos_bound (end_ - start) 86400000000 ltac:(lia)) as Hmod.
  split; [nia|]. intros -> -> Hwhole. lia.
Qed.

Lemma random_date_range_witness :
  generate_sample_data.random_date Sample.START_DATE Sample.END_DATE 23 86400
  = Sample.END_DATE + MICROS_PER_DAY.
Proof.
  apply (proj2 (random_date_range Sample.START_DATE Sample.END_DATE 23 86400
                  ltac:(vm_compute; discriminate)
                  ltac:(vm_compute; split; discriminate)
                  ltac:(lia)));
    reflexivity.
Defined.

Lemma to_uint_nonnil (n : nat) : Nat.to_uint n <> Decimal.Nil.
Proof.
  rewrite <- (DecimalNat.Unsigned.of_to n) at 1.
  rewrite DecimalNat.Unsigned.to_of. apply DecimalFacts.unorm_nonnil.
Qed.

Lemma decimal_inj (n m : nat) :
  generate_sample_data.decimal n = generate_sample_data.decimal m -> n = m.
Proof.
  unfold generate_sample_data.decimal. intros H.
  apply DecimalNat.Unsigned.to_uint_inj.
  assert (E : Some (Nat.to_uint n) = Some (Nat.to_uint m)); [|congruence].
  rewrite <- (NilZero.usu _ (to_uint_nonnil n)),
          <- (NilZero.usu _ (to_uint_nonnil m)).
  now rewrite H.
Qed.

(** X24. Two generated booking ids are equal only when the same number
    was drawn for both, and a booking id is never the id of a test
    purchase: an event with a test id and an opportunity with a booking id
    never satisfy the join condition. *)
Theorem generated_ids_collide_only_on_equal_draws (n m : nat) :
  (generate_sample_data.generate_transaction_id n
   = generate_sample_data.generate_transaction_id m -> n = m)
  /\ generate_sample_data.test_transaction_id n
     <> generate_sample_data.generate_transaction_id m
  /\ (forall g s,
        ga4_bookings.transaction_id g
        = Some (generate_sample_data.test_transaction_id n) ->
        sf_opportunities.transaction_id s
        = Some (generate_sample_data.generate_transaction_id m) ->
        booking_reconciliation.on g s = false).
Proof.
  assert (Hne : generate_sample_data.test_transaction_id n
                <> generate_sample_data.generate_transaction_id m).
  { unfold generate_sample_data.test_transaction_id,
      generate_sample_data.generate_transaction_id. cbn. discriminate. }
  split; [|split; [exact Hne|]].
  - unfold generate_sample_data.generate_transaction_id. cbn.
    intros [= H]. now apply decimal_inj.
  - intros g s Hg Hs. apply not_true_is_false. intros Hon.
    apply on_keys in Hon as (k & Hk1 & Hk2). congruence.
Qed.

Lemma generated_ids_collide_only_on_equal_draws_witness :
  booking_reconciliation.on
    (ga4_bookings.select Sample.test_purchase)
    (sf_opportunities.select
       (Sample.opportunity (Some "BK4321"%string) None None
                           (Some "Confirmed"%string) None)) = false.
Proof.
  apply (proj2 (proj2 (generated_ids_collide_only_on_equal_draws 1234 4321)));
    reflexivity.
Defined.

(** X25. A generated booking is worth between 150 and 3500 (a room rate
    of 150 to 500 for 1 to 7 nights), so in the GA4-only analysis a row of
    such an event that is not flagged as a test is never given the reason
    ['Low Value']: its reason is ['Unknown']. *)
Theorem generated_booking_is_never_low_value
    (b : generate_sample_data.booking) (r : booking_reconciliation.row) :
  150 <= generate_sample_data.room_rate b <= 500 ->
  1 <= generate_sample_data.nights b <= 7 ->
  booking_reconciliation.is_test_booking r = Some false ->
  booking_reconciliation.ga4_booking_value r
  = Some (inject_Z (generate_sample_data.booking_value b)) ->
  150 <= generate_sample_data.booking_value b <= 3500
  /\ ga4_only_analysis.likely_reason_case r = Some Unknown.
Proof.
  intros Hrate Hnights Hflag Hvalue.
  assert (Hrange : 150 <= generate_sample_data.booking_value b <= 3500)
    by (unfold generate_sample_data.booking_value; nia).
  split; [exact Hrange|].
  unfold ga4_only_analysis.likely_reason_case. rewrite Hflag, Hvalue.
  cbn [Sql.case_when Sql.holds sql_lt].
  assert (E : Qle_bool 100 (inject_Z (generate_sample_data.booking_value b))
              = true).
  { apply Qle_bool_iff. change 100%Q with (inject_Z 100).
    rewrite <- Zle_Qle. lia. }
  now rewrite E.
Qed.

Lemma generated_booking_is_never_low_value_witness :
  ga4_only_analysis.likely_reason_case
    (booking_reconciliation.select
       (Some (ga4_bookings.select Sample.booking_A), None)) = Some Unknown.
Proof.
  apply (proj2 (generated_booking_is_never_low_value Sample.google_booking
                  (booking_reconciliation.select
                     (Some (ga4_bookings.select Sample.booking_A), None))
                  ltac:(cbn; lia) ltac:(cbn; lia) eq_refl eq_refl)).
Defined.

Lemma epoch_minutes_shift (t k : Z) :
  0 <= t -> 0 <= k ->
  epoch_minutes (t + k * (SECS_PER_MINUTE * MICROS_PER_SEC))
  = epoch_minutes t + k.
Proof.
  intros Ht Hk. rewrite !epoch_minutes_quot.
  unfold SECS_PER_MINUTE, MICROS_PER_SEC.
  rewrite !Z.quot_div_nonneg by lia.
  replace (t + k * (60 * 1000000)) with (t + k * 60000000) by lia.
  now rewrite Z.div_add by lia.
Qed.

(** X26. An opportunity dated a whole number [k] of minutes after its
    booking, as the generator dates it with [k] from 5 to 15, shows up in
    the matched row with a time difference of exactly [k] minutes; this
    holds for times from 1970 on. *)
Theorem generated_delay_is_the_time_difference
    (b : generate_sample_data.booking) (minutes : Z)
    (g : ga4_bookings.row) (s : sf_opportunities.row) :
  0 <= generate_sample_data.booking_datetime b ->
  0 <= minutes ->
  ga4_bookings.booking_timestamp g
  = Some (generate_sample_data.booking_datetime b) ->
  sf_opportunities.opportunity_timestamp s
  = Some (generate_sample_data.sf_datetime b minutes) ->
  booking_reconciliation.time_diff_minutes
    (booking_reconciliation.select (Some g, Some s)) = Some minutes.
Proof.
  intros Ht Hk Hg Hs. cbn. rewrite Hg, Hs.
  unfold booking_reconciliation.time_diff_case. cbn.
  unfold datediff_minute, generate_sample_data.sf_datetime.
  rewrite epoch_minutes_shift by assumption. f_equal. lia.
Qed.

Lemma generated_delay_is_the_time_difference_witness :
  booking_reconciliation.time_diff_minutes
    (booking_reconciliation.select
       (Some (ga4_bookings.select Sample.booking_A),
        Some (sf_opportunities.select
                (Sample.opportunity
                   (Some "BK100001"%string)
                   (Some (generate_sample_data.sf_datetime
                            Sample.google_booking 7))
                   None (Some "Confirmed"%string) None))))
  = Some 7.
Proof.
  apply (generated_delay_is_the_time_difference Sample.google_booking 7);
    [vm_compute; discriminate | lia | reflexivity | reflexivity].
Defined.

(** ** The order of the input rows *)

Lemma filter_perm {A} (p : A -> bool) (l l' : list A) :
  Permutation l l' -> Permutation (filter p l) (filter p l').
Proof.
  induction 1 as [|x l l' H IH|x y l|l l' l'' H1 IH1 H2 IH2]; cbn.
  - constructor.
  - destruct (p x); [now constructor | assumption].
  - destruct (p x), (p y); try reflexivity. apply perm_swap.
  - now transitivity (filter p l').
Qed.

Lemma existsb_perm {A} (p : A -> bool) (l l' : list A) :
  Permutation l l' -> existsb p l = existsb p l'.
Proof.
  induction 1 as [|x l l' H IH|x y l|l l' l'' H1 IH1 H2 IH2]; cbn.
  - reflexivity.
  - now rewrite IH.
  - destruct (p x), (p y); reflexivity.
  - congruence.
Qed.

Lemma left_outer_rows_perm {A B} (on : A -> B -> bool) (R R' : list B)
    (a : A) :
  Permutation R R' ->
  Permutation (Sql.left_outer_rows on R a) (Sql.left_outer_rows on R' a).
Proof.
  intros H. apply (filter_perm (on a)) in H. unfold Sql.left_outer_rows.
  destruct (filter (on a) R) as [|b l] eqn:E.
  - apply Permutation_nil in H. now rewrite H.
  - destruct (filter (on a) R') as [|b' l'] eqn:E'.
    + symmetry in H. apply Permutation_nil in H. discriminate.
    + now apply Permutation_map.
Qed.

Lemma flat_map_perm_pointwise {A B} (f h : A -> list B) (l : list A) :
  (forall a, Permutation (f a) (h a)) ->
  Permutation (flat_map f l) (flat_map h l).
Proof.
  intros H. induction l as [|a l IH]; [constructor|].
  cbn. now apply Permutation_app.
Qed.

Lemma full_outer_join_perm {A B} (on : A -> B -> bool)
    (L L' : list A) (R R' : list B) :
  Permutation L L' -> Permutation R R' ->
  Permutation (Sql.full_outer_join on L R) (Sql.full_outer_join on L' R').
Proof.
  intros HL HR. unfold Sql.full_outer_join. apply Permutation_app.
  - transitivity (flat_map (Sql.left_outer_rows on R) L').
    + now apply Permutation_flat_map.
    + apply flat_map_perm_pointwise. intros a.
      now apply left_outer_rows_perm.
  - apply Permutation_map.
    rewrite (filter_ext (Sql.unmatched on L) (Sql.unmatched on L')).
    + now apply filter_perm.
    + intros b. unfold Sql.unmatched. f_equal. now apply existsb_perm.
Qed.

(** X27. The reconciliation does not depend on the order of the staging
    tables: when the events and the opportunities are given in another
    order, the reconciliation has the same rows in another order, and so
    the same number of rows of every status. *)
Theorem reconciliation_ignores_input_order
    (ga4 ga4' : list ga4_events.row)
    (sf sf' : list salesforce_opportunities.row) :
  Permutation ga4 ga4' -> Permutation sf sf' ->
  Permutation (booking_reconciliation.table ga4 sf)
              (booking_reconciliation.table ga4' sf')
  /\ total_records ga4 sf = total_records ga4' sf'
  /\ forall st,
       count_status st (booking_reconciliation.table ga4 sf)
       = count_status st (booking_reconciliation.table ga4' sf').
Proof.
  intros Hga4 Hsf.
  assert (Hperm : Permutation (booking_reconciliation.table ga4 sf)
                              (booking_reconciliation.table ga4' sf')).
  { unfold booking_reconciliation.table, booking_reconciliation.join.
    apply Permutation_map. apply full_outer_join_perm.
    - unfold ga4_bookings.cte. apply Permutation_map. now apply filter_perm.
    - unfold sf_opportunities.cte. apply Permutation_map.
      now apply filter_perm. }
  split; [exact Hperm|]. split.
  - unfold total_records, Sql.count_where. apply Permutation_length.
    now apply filter_perm.
  - intros st. unfold count_status, Sql.count_where.
    apply Permutation_length. now apply filter_perm.
Qed.

Lemma reconciliation_ignores_input_order_witness :
  count_status matched
    (booking_reconciliation.table
       [Sample.booking_A; Sample.undated_B]
       [Sample.confirmed_A; Sample.confirmed_B])
  = count_status matched
      (booking_reconciliation.table
         [Sample.undated_B; Sample.booking_A]
         [Sample.confirmed_B; Sample.confirmed_A]).
Proof.
  apply (proj2 (proj2
           (reconciliation_ignores_input_order
              [Sample.booking_A; Sample.undated_B]
              [Sample.undated_B; Sample.booking_A]
              [Sample.confirmed_A; Sample.confirmed_B]
              [Sample.confirmed_B; Sample.confirmed_A]
              (perm_swap _ _ _) (perm_swap _ _ _)))).
Defined.

Lemma aggregate_perm (ieee_floating_point_ops : bool)
    (t t' : list booking_reconciliation.row) (d : option DATE) :
  Permutation t t' ->
  daily_trend.aggregate ieee_floating_point_ops t d
  = daily_trend.aggregate ieee_floating_point_ops t' d.
Proof.
  intros H. unfold daily_trend.aggregate. cbv zeta.
  pose proof (filter_perm
                (fun r => option_Z_eqb (booking_reconciliation.date r) d)
                t t' H) as Hg.
  rewrite (Permutation_length Hg).
  change (fold_right Z.add 0 ?l) with (Zsum l).
  rewrite (Zsum_perm _ _
             (Permutation_map
                (fun r => if Sql.holds (is_matched r) then 1 else 0) Hg)).
  reflexivity.
Qed.

Lemma group_keys_perm (dates dates' : list (option DATE)) :
  Permutation dates dates' ->
  Permutation (daily_trend.group_keys dates) (daily_trend.group_keys dates').
Proof.
  intros H. apply NoDup_Permutation; try apply group_keys_nodup.
  intros d. rewrite !group_keys_in. split; apply Permutation_in;
    [assumption | now symmetry].
Qed.

Lemma newer_asymmetric (a b : option DATE) : newer a b -> ~ newer b a.
Proof. destruct a, b; cbn; try tauto. lia. Qed.

Lemma strictly_sorted_unique (l l' : list daily_trend.row) :
  StronglySorted
    (fun a b => newer (daily_trend.date a) (daily_trend.date b)) l ->
  StronglySorted
    (fun a b => newer (daily_trend.date a) (daily_trend.date b)) l' ->
  Permutation l l' -> l = l'.
Proof.
  intros Hs. revert l'. induction Hs as [|x l Hs IH Hx]; intros l' Hs' Hp.
  - apply Permutation_nil in Hp. now subst.
  - destruct l' as [|y l'];
      [symmetry in Hp; now apply Permutation_nil in Hp|].
    inversion Hs' as [|? ? Hs'' Hy]; subst.
    rewrite Forall_forall in Hx, Hy.
    assert (x = y).
    { assert (Hxin : In x (y :: l'))
        by (apply (Permutation_in _ Hp); now left).
      assert (Hyin : In y (x :: l))
        by (apply (Permutation_in _ (Permutation_sym Hp)); now left).
      destruct Hxin as [->|Hxin]; [reflexivity|].
      destruct Hyin as [->|Hyin]; [reflexivity|].
      exfalso. apply (newer_asymmetric _ _ (Hx y Hyin)). now apply Hy. }
    subst y. f_equal. apply IH; [assumption|].
    now apply Permutation_cons_inv in Hp.
Qed.

(** X28. The daily trend does not depend on the order of the rows of the
    reconciliation: any reordering of the rows gives the same lines in the
    same order. *)
Theorem daily_trend_ignores_row_order (ieee_floating_point_ops : bool)
    (t t' : list booking_reconciliation.row) :
  Permutation t t' ->
  daily_trend.query ieee_floating_point_ops t
  = daily_trend.query ieee_floating_point_ops t'.
Proof.
  intros H. unfold daily_trend.query. f_equal.
  set (keys := daily_trend.group_keys (map booking_reconciliation.date t)).
  set (keys' := daily_trend.group_keys (map booking_reconciliation.date t')).
  assert (Hkeys : Permutation keys keys')
    by (apply group_keys_perm; now apply Permutation_map).
  assert (Hagg : map (daily_trend.aggregate ieee_floating_point_ops t') keys'
                 = map (daily_trend.aggregate ieee_floating_point_ops t) keys')
    by (apply map_ext; intros d; symmetry; now apply aggregate_perm).
  rewrite Hagg.
  set (agg := daily_trend.aggregate ieee_floating_point_ops t).
  assert (Hdates : forall ks, map daily_trend.date (map agg ks) = ks).
  { intros ks. rewrite map_map. cbn. apply map_id. }
  assert (Hsorted : forall ks, NoDup ks ->
            StronglySorted
              (fun a b => newer (daily_trend.date a) (daily_trend.date b))
              (daily_trend.order_by (map agg ks))).
  { intros ks Hnd. apply sorted_distinct_strict; [apply order_by_sorted|].
    apply (Permutation_NoDup
             (Permutation_map daily_trend.date (order_by_perm (map agg ks)))).
    now rewrite Hdates. }
  apply strictly_sorted_unique.
  - apply Hsorted. apply group_keys_nodup.
  - apply Hsorted. apply group_keys_nodup.
  - rewrite <- (order_by_perm (map agg keys)),
            <- (order_by_perm (map agg keys')).
    now apply Permutation_map.
Qed.

Lemma daily_trend_ignores_row_order_witness :
  daily_trend.query true
    [booking_reconciliation.select
       (Some (ga4_bookings.select Sample.booking_A), None);
     booking_reconciliation.select
       (None, Some (sf_opportunities.select Sample.confirmed_B))]
  = daily_trend.query true
      [booking_reconciliation.select
         (None, Some (sf_opportunities.select Sample.confirmed_B));
       booking_reconciliation.select
         (Some (ga4_bookings.select Sample.booking_A), None)].
Proof.
  apply (daily_trend_ignores_row_order true _ _ (perm_swap _ _ _)).
Defined.
